(** * ESP32 GPS / BLE / WiFi telemetry node: a shallow embedding

    The repository holds several variants of one MicroPython program
    (GPS_WIFI_Blue_2.py, GPS_WIFI_Blue_3.py, GPS_WIFI_Blue_4_.py and
    GPS_4G_Blue.py).  This development embeds the GLL sentence parser, the
    BLE ring buffer [data_pool], the payload builder and the upload
    scheduler of the main loop, and states the properties of each. *)

From Stdlib Require Import ZArith NArith QArith Qminmax Lia Lqa Bool.
From Stdlib Require Import Strings.String Strings.Ascii DecimalString DecimalPos.
From stdpp Require Import base list.

Open Scope string_scope.

(** ** Python built-ins used by the program *)

Module Py.

(** [sub in s] on strings. *)
Fixpoint contains (sub s : string) : bool :=
  if String.prefix sub s then true
  else match s with
       | EmptyString => false
       | String _ s' => contains sub s'
       end.

(** [s.split(sep)] for a non-empty separator: the pieces between the
    non-overlapping occurrences of [sep], scanned from the left.  [skip]
    counts the characters of a separator found earlier that are still to be
    dropped. *)
Fixpoint split_from (sep s : string) (skip : nat) : list string :=
  match s with
  | EmptyString => [EmptyString]
  | String c s' =>
      match skip with
      | S k => split_from sep s' k
      | O =>
          if String.prefix sep s
          then EmptyString :: split_from sep s' (String.length sep - 1)
          else match split_from sep s' 0 with
               | [] => [String c EmptyString]
               | p :: ps => String c p :: ps
               end
      end
  end.

Definition split (sep s : string) : list string := split_from sep s 0.

(** An exception of the interpreter, by class. *)
Inductive exn : Type :=
| IndexError
| ValueError
| ZeroDivisionError.

(** [l[i]] for a non-negative constant index. *)
Definition index {A} (l : list A) (i : nat) : exn + A :=
  match l !! i with
  | Some x => inr x
  | None => inl IndexError
  end.

(** *** Floating-point values

    A float is kept as the decimal it was read from: sign, decimal mantissa
    and decimal exponent, so that [Fin s m e] stands for
    [(-1)^s * m * 10^e]; the two infinities and not-a-number are values of
    their own.  The rounding of a decimal literal to the nearest binary
    float, and with it overflow to infinity and underflow to zero, is not
    part of the model; the properties of the parser below are stated for
    any [float] function, and this one is used on concrete sentences. *)
Inductive pyfloat : Type :=
| Fin (neg : bool) (m : N) (e : Z)
| Inf (neg : bool)
| NaN.

(** The literal [0.0] the globals start from. *)
Definition zero : pyfloat := Fin false 0 0.

(** Unary minus. *)
Definition fneg (x : pyfloat) : pyfloat :=
  match x with
  | Fin s m e => Fin (negb s) m e
  | Inf s => Inf (negb s)
  | NaN => NaN
  end.

(** [x == 0] and [x != 0]: not-a-number differs from everything. *)
Definition eq0 (x : pyfloat) : bool :=
  match x with
  | Fin _ m _ => (m =? 0)%N
  | _ => false
  end.

Definition ne0 (x : pyfloat) : bool := negb (eq0 x).

(** The rational a finite float stands for. *)
Definition to_Q (x : pyfloat) : option Q :=
  match x with
  | Fin s m e =>
      let a := Z.of_N m in
      let v := if (0 <=? e)%Z then inject_Z (a * 10 ^ e) else a # Z.to_pos (10 ^ (- e)) in
      Some (if s then Qopp v else v)
  | _ => None
  end.

(** [x] is finite and stands for the rational [q]. *)
Definition has_value (x : pyfloat) (q : Q) : Prop :=
  match to_Q x with
  | Some v => v == q
  | None => False
  end.

(** *** [float(s)]: reading a decimal literal

    Surrounding white space is dropped, then an optional sign, then either
    one of the names [inf], [infinity], [nan] in any letter case, or digits
    with an optional point and an optional exponent part; at least one digit
    is needed.  Anything else is a [ValueError]. *)
Definition is_space (c : ascii) : bool :=
  let n := N_of_ascii c in
  ((n =? 32) || ((9 <=? n) && (n <=? 13)))%N.

Fixpoint lstrip (s : string) : string :=
  match s with
  | String c s' => if is_space c then lstrip s' else s
  | EmptyString => s
  end.

Definition digit_val (c : ascii) : option N :=
  let n := N_of_ascii c in
  if ((48 <=? n) && (n <=? 57))%N then Some (n - 48)%N else None.

(** A run of digits: the number read so far, how many digits, the rest. *)
Fixpoint digits (s : string) (acc : N) (cnt : nat) : N * nat * string :=
  match s with
  | String c s' =>
      match digit_val c with
      | Some d => digits s' (10 * acc + d)%N (S cnt)
      | None => (acc, cnt, s)
      end
  | EmptyString => (acc, cnt, s)
  end.

Definition sign (s : string) : bool * string :=
  match s with
  | String "-" s' => (true, s')
  | String "+" s' => (false, s')
  | _ => (false, s)
  end.

Definition lower (c : ascii) : ascii :=
  let n := N_of_ascii c in
  if ((65 <=? n) && (n <=? 90))%N then ascii_of_N (n + 32) else c.

Fixpoint lowercase (s : string) : string :=
  match s with
  | String c s' => String (lower c) (lowercase s')
  | EmptyString => EmptyString
  end.

(** The text with its trailing white space cut off. *)
Fixpoint rstrip (s : string) : string :=
  match s with
  | String c s' =>
      match rstrip s' with
      | EmptyString => if is_space c then EmptyString else String c EmptyString
      | r => String c r
      end
  | EmptyString => EmptyString
  end.

Definition exponent (s : string) : option (Z * string) :=
  match s with
  | String c s' =>
      if (lower c =? "e")%char then
        let '(sg, r) := sign s' in
        let '(v, n, r') := digits r 0 0 in
        match n with
        | O => None
        | S _ => Some (if sg then (- Z.of_N v)%Z else Z.of_N v, r')
        end
      else Some (0%Z, s)
  | EmptyString => Some (0%Z, s)
  end.

Definition float (s : string) : exn + pyfloat :=
  let '(sg, r) := sign (rstrip (lstrip s)) in
  let name := lowercase r in
  if (name =? "inf") || (name =? "infinity") then inr (Inf sg)
  else if name =? "nan" then inr NaN
  else
    let '(mi, ni, r1) := digits r 0 0 in
    let '(m, nf, r2) :=
      match r1 with
      | String "." r1' => digits r1' mi 0
      | _ => (mi, O, r1)
      end in
    match (ni + nf)%nat, exponent r2 with
    | S _, Some (ex, EmptyString) => inr (Fin sg m (ex - Z.of_nat nf))
    | _, _ => inl ValueError
    end.

(** *** ["%.6f" % x]

    A finite value is rounded to six decimal places (ties to even) and
    printed as sign, integer part, point and six digits; the other values
    print as their names. *)
Definition digit_char (d : N) : ascii := ascii_of_N (48 + d mod 10).

(** The [k] low decimal digits of [n], most significant first. *)
Fixpoint fixed_digits (k : nat) (n : N) : string :=
  match k with
  | O => EmptyString
  | S k' => fixed_digits k' (n / 10) ++ String (digit_char n) EmptyString
  end.

Definition str_N (n : N) : string := NilEmpty.string_of_uint (N.to_uint n).

Definition round_half_even (m d : N) : N :=
  let q := (m / d)%N in
  let r := (m mod d)%N in
  if ((d <? 2 * r) || ((2 * r =? d) && N.odd q))%N then (q + 1)%N else q.

(** [m * 10^e] in units of [10^-6]. *)
Definition micro (m : N) (e : Z) : N :=
  if (0 <=? e + 6)%Z then (m * 10 ^ Z.to_N (e + 6))%N
  else round_half_even m (10 ^ Z.to_N (- (e + 6))).

Definition format_6f (x : pyfloat) : string :=
  match x with
  | Fin s m e =>
      let n := micro m e in
      (if s then "-" else "") ++ str_N (n / 10 ^ 6) ++ "." ++ fixed_digits 6 n
  | Inf s => if s then "-inf" else "inf"
  | NaN => "nan"
  end.

(** *** [str(x)] of a float

    Python prints the shortest decimal that reads back as [x]: the
    significant digits with no zero at the end, in positional notation
    when the point falls within the digits or up to four places before and
    sixteen after their start, with an exponent otherwise.  For a float read
    from a decimal of at most fifteen significant digits these are the
    digits of that decimal; a longer mantissa is printed digit for digit
    here, where Python stops at seventeen. *)
Fixpoint rstrip_zeros (s : string) : string :=
  match s with
  | EmptyString => EmptyString
  | String c s' =>
      let t := rstrip_zeros s' in
      if (t =? "")%string && Ascii.eqb c "0" then EmptyString else String c t
  end.

Fixpoint zeros (n : nat) : string :=
  match n with
  | O => EmptyString
  | S n' => String "0" (zeros n')
  end.

(** The exponent part: a sign and at least two digits. *)
Definition str_exponent (x : Z) : string :=
  (if (x <? 0)%Z then "-" else "+")
  ++ (if (Z.abs x <? 10)%Z then "0" else "") ++ str_N (Z.to_N (Z.abs x)).

Definition str_float (x : pyfloat) : string :=
  match x with
  | Fin s m e =>
      let all := str_N m in
      let d := rstrip_zeros all in
      let sgn := if s then "-" else "" in
      if (d =? "")%string then sgn ++ "0.0"
      else
        let n := String.length d in
        (* the value is 0.d * 10^decpt *)
        let decpt := (Z.of_nat (String.length all) + e)%Z in
        if (decpt <=? -4)%Z || (16 <? decpt)%Z then
          sgn ++ substring 0 1 d
              ++ (if (1 <? n)%nat then "." ++ substring 1 (n - 1) d else "")
              ++ "e" ++ str_exponent (decpt - 1)
        else if (decpt <=? 0)%Z then
          sgn ++ "0." ++ zeros (Z.to_nat (- decpt)) ++ d
        else if (Z.of_nat n <=? decpt)%Z then
          sgn ++ d ++ zeros (Z.to_nat decpt - n) ++ ".0"
        else
          sgn ++ substring 0 (Z.to_nat decpt) d
              ++ "." ++ substring (Z.to_nat decpt) (n - Z.to_nat decpt) d
  | Inf s => if s then "-inf" else "inf"
  | NaN => "nan"
  end.

(** *** Decimal texts *)
Definition is_digit (c : ascii) : bool :=
  match digit_val c with
  | Some _ => true
  | None => false
  end.

Fixpoint all_digits (s : string) : bool :=
  match s with
  | EmptyString => true
  | String c s' => is_digit c && all_digits s'
  end.

(** The text before the first point and the text after it. *)
Fixpoint cut_point (s : string) : option (string * string) :=
  match s with
  | EmptyString => None
  | String c s' =>
      if (c =? ".")%char then Some (EmptyString, s')
      else match cut_point s' with
           | Some (a, b) => Some (String c a, b)
           | None => None
           end
  end.

(** A decimal text with exactly [k] digits after the point: an optional
    minus sign, one digit or more, the point, [k] digits. *)
Definition fixed_decimal (k : nat) (s : string) : bool :=
  let body := match s with
              | String "-" s' => s'
              | _ => s
              end in
  match cut_point body with
  | Some (i, f) =>
      negb (i =? "") && all_digits i && all_digits f && (String.length f =? k)%nat
  | None => false
  end.

(** Neither an infinity nor not-a-number. *)
Definition is_finite (x : pyfloat) : bool :=
  match x with
  | Fin _ _ _ => true
  | _ => false
  end.

(** *** Statements that may raise, over a mutable state

    A computation takes the state and returns either a value or the
    exception it raised, together with the state as it was left: what was
    assigned before a [raise] stays assigned. *)
Inductive result (A : Type) : Type :=
| Ok (a : A)
| Raise (e : exn).
Arguments Ok {A} a.
Arguments Raise {A} e.

Definition M (S A : Type) : Type := S -> result A * S.

Definition ret {S A} (a : A) : M S A := fun s => (Ok a, s).

Definition bind {S A B} (m : M S A) (k : A -> M S B) : M S B :=
  fun s =>
    match m s with
    | (Ok a, s') => k a s'
    | (Raise e, s') => (Raise e, s')
    end.

Definition raise {S A} (e : exn) : M S A := fun s => (Raise e, s).

Definition get {S} : M S S := fun s => (Ok s, s).

Definition modify {S} (f : S -> S) : M S unit := fun s => (Ok tt, f s).

(** A built-in that may raise. *)
Definition lift {S A} (r : exn + A) : M S A :=
  match r with
  | inr a => ret a
  | inl e => raise e
  end.

(** [try: m  except ... as e: h e] *)
Definition try_except {S A} (m : M S A) (h : exn -> M S A) : M S A :=
  fun s =>
    match m s with
    | (Ok a, s') => (Ok a, s')
    | (Raise e, s') => h e s'
    end.

(** The state a computation leaves. *)
Definition exec {S A} (m : M S A) (s : S) : S := snd (m s).

(** A computation on one component of the state, run on the whole state. *)
Definition zoom {S T A} (proj : S -> T) (inj : T -> S -> S) (m : M T A) : M S A :=
  fun s =>
    match m (proj s) with
    | (r, t') => (r, inj t' s)
    end.

End Py.

Declare Scope py_scope.
Delimit Scope py_scope with py.
Notation "x <- m ;; k" := (Py.bind m (fun x => k))
  (at level 100, m at next level, right associativity) : py_scope.
Notation "m ;; k" := (Py.bind m (fun _ => k))
  (at level 100, right associativity) : py_scope.

(** ** The GPS reader: class [GPSReader] and the position globals *)

Module GPS.
Import Py.
Local Open Scope py_scope.

(** The module-level globals the parser assigns, and the fields of the
    reader object. *)
Record state : Type := {
  gps_data_valid : bool;
  nmea_x : pyfloat;          (* longitude *)
  nmea_y : pyfloat;          (* latitude *)
  last_x : pyfloat;
  last_y : pyfloat;
  self_nmea_x : pyfloat;
  self_nmea_y : pyfloat;
  last_gps_time : Q
}.

(** The values the program starts with. *)
Definition init : state := {|
  gps_data_valid := false;
  nmea_x := zero; nmea_y := zero;
  last_x := zero; last_y := zero;
  self_nmea_x := zero; self_nmea_y := zero;
  last_gps_time := 0
|}.

(** [nmea_x = last_x; nmea_y = last_y; gps_data_valid = True] *)
Definition use_history (g : state) : state := {|
  gps_data_valid := true;
  nmea_x := last_x g; nmea_y := last_y g;
  last_x := last_x g; last_y := last_y g;
  self_nmea_x := self_nmea_x g; self_nmea_y := self_nmea_y g;
  last_gps_time := last_gps_time g
|}.

(** The assignments of a valid sentence: the reader's fields, the globals,
    the history and the flag. *)
Definition commit (lon lat : pyfloat) (g : state) : state := {|
  gps_data_valid := true;
  nmea_x := lon; nmea_y := lat;
  last_x := lon; last_y := lat;
  self_nmea_x := lon; self_nmea_y := lat;
  last_gps_time := last_gps_time g
|}.

(** [self.last_gps_time = time.time()] *)
Definition stamp (now : Q) (g : state) : state := {|
  gps_data_valid := gps_data_valid g;
  nmea_x := nmea_x g; nmea_y := nmea_y g;
  last_x := last_x g; last_y := last_y g;
  self_nmea_x := self_nmea_x g; self_nmea_y := self_nmea_y g;
  last_gps_time := now
|}.

(** What the stream of the receiver holds at a poll: nothing, bytes that do
    not decode, or text. *)
Inductive uart : Type :=
| NoData
| Garbled
| Text (raw : string).

Definition CRLF : string := String "013" (String "010" EmptyString).

Section Parser.

(** The built-in [float] the parser calls. *)
Variable float : string -> exn + pyfloat.

(** [_parse_gll] of GPS_WIFI_Blue_2.py.  The guard admits six fields and
    the next line reads the seventh; only the conversions sit inside the
    [try]. *)
Definition _parse_gll_v2 (sentence : string) : M state bool :=
  let parts := split "," sentence in
  if (6 <=? length parts)%nat then
    status <- lift (index parts 6) ;;
    if (status =? "A")%string then
      try_except
        (p1 <- lift (index parts 1) ;;
         lat <- lift (float p1) ;;
         p3 <- lift (index parts 3) ;;
         lon <- lift (float p3) ;;
         p2 <- lift (index parts 2) ;;
         let lat := if contains "S" p2 then fneg lat else lat in
         p4 <- lift (index parts 4) ;;
         let lon := if contains "W" p4 then fneg lon else lon in
         modify (commit lon lat) ;;
         ret true)
        (fun e =>
           match e with
           | ValueError => ret false
           | _ => raise e
           end)
    else
      g <- get ;;
      (if eq0 (last_x g) then ret tt else modify use_history) ;;
      ret false
  else ret false.

(** [_parse_gll] of GPS_WIFI_Blue_3.py and GPS_WIFI_Blue_4_.py (the same
    text in both).  The whole body is inside the [try], and both handlers
    return [False]. *)
Definition _parse_gll (now : Q) (sentence : string) : M state bool :=
  try_except
    (let parts := split "," sentence in
     if (length parts <? 7)%nat then ret false
     else
       status <- lift (index parts 6) ;;
       if negb (status =? "A")%string then
         g <- get ;;
         (if ne0 (last_x g) then modify use_history else ret tt) ;;
         ret false
       else
         p1 <- lift (index parts 1) ;;
         lat <- lift (float p1) ;;
         p2 <- lift (index parts 2) ;;
         let lat := if contains "S" p2 then fneg lat else lat in
         p3 <- lift (index parts 3) ;;
         lon <- lift (float p3) ;;
         p4 <- lift (index parts 4) ;;
         let lon := if contains "W" p4 then fneg lon else lon in
         modify (commit lon lat) ;;
         modify (stamp now) ;;
         ret true)
    (fun e =>
       match e with
       | ValueError => ret false
       | _ => ret false
       end).

(** The loop over the sentences of one chunk: a sentence is parsed when it
    is not empty and contains [GLL]; the first one that parses ends the
    loop. *)
Fixpoint for_sentences (parse : string -> M state bool) (sentences : list string)
  : M state unit :=
  match sentences with
  | [] => ret tt
  | sentence :: rest =>
      if negb (sentence =? "")%string && contains "GLL" sentence then
        ok <- parse sentence ;;
        if ok then ret tt else for_sentences parse rest
      else for_sentences parse rest
  end.

(** The [try] around the loop, with its handler for every exception. *)
Definition poll_sentences (parse : string -> M state bool) (sentences : list string)
  : M state unit :=
  try_except (for_sentences parse sentences) (fun _ => ret tt).

(** [read_gps_data] of GPS_WIFI_Blue_2.py. *)
Definition read_gps_data_v2 (u : uart) : M state unit :=
  match u with
  | NoData => ret tt
  | Garbled => ret tt
  | Text raw => poll_sentences _parse_gll_v2 (split CRLF raw)
  end.

(** [read_gps_data] of GPS_WIFI_Blue_3.py ([period] 1.0) and
    GPS_WIFI_Blue_4_.py ([period] 2.0): the stream is looked at only when
    [period] seconds have passed since the last valid sentence. *)
Definition read_gps_data (period now : Q) (u : uart) : M state unit :=
  g <- get ;;
  if Qle_bool period (now - last_gps_time g) then
    match u with
    | NoData => ret tt
    | Garbled => ret tt
    | Text raw => poll_sentences (_parse_gll now) (split CRLF raw)
    end
  else ret tt.

(** Sentences handed to the parser one after the other, each call on the
    state the one before left. *)
Definition feed (parse : string -> M state bool) (sentences : list string)
  (g : state) : state :=
  fold_left (fun g s => exec (parse s) g) sentences g.

End Parser.

(** The three programs that carry the position history. *)
Inductive variant : Type :=
| Blue_2
| Blue_3
| Blue_4.

(** The parser of a variant; only the later two read the clock. *)
Definition parser (v : variant) (float : string -> exn + pyfloat) (now : Q)
  : string -> M state bool :=
  match v with
  | Blue_2 => _parse_gll_v2 float
  | Blue_3 => _parse_gll float now
  | Blue_4 => _parse_gll float now
  end.

(** The status field of a sentence, when it has one. *)
Definition status (sentence : string) : option string :=
  split "," sentence !! 6.

(** A void sentence: it has a status field, and the field is not [A]. *)
Definition void (sentence : string) : Prop :=
  exists st, status sentence = Some st /\ st <> "A".

(** The state holds a fix: the flag is set and the history is the
    position. *)
Definition fixed (g : state) : Prop :=
  gps_data_valid g = true /\
  last_x g = nmea_x g /\
  last_y g = nmea_y g.

(** The sentence of the end-to-end scenario, and a void one. *)
Definition scenario : string :=
  "$xxGLL,3723.2475,N,12158.3416,W,161229.487,A,A*41".

Definition void_sentence : string := "$GPGLL,,,,,,V,N*64".


End GPS.

(** ** The BLE ring buffer: class [data_pool] of GPS_WIFI_Blue_4_.py *)

Module Pool.
Import Py.
Local Open Scope py_scope.

Section Samples.

(** A sample: the tuple of floats unpacked from one BLE write. *)
Context {A : Type}.

Record data_pool : Type := {
  size : nat;
  buffer : list (option A);
  index : nat
}.

(** [data_pool(size)] *)
Definition new (size : nat) : data_pool := {|
  size := size;
  buffer := replicate size None;
  index := 0
|}.

Definition set_buffer (b : list (option A)) (p : data_pool) : data_pool :=
  {| size := size p; buffer := b; index := index p |}.

Definition set_index (i : nat) (p : data_pool) : data_pool :=
  {| size := size p; buffer := buffer p; index := i |}.

(** [append]: the slot at the cursor is assigned, then the cursor moves on
    modulo [size].  A cursor outside the list is an [IndexError], a [size]
    of zero a [ZeroDivisionError] after the slot was assigned. *)
Definition append (item : A) : M data_pool unit :=
  p <- get ;;
  (if (index p <? length (buffer p))%nat
   then modify (set_buffer (<[index p := Some item]> (buffer p)))
   else raise IndexError) ;;
  (if (size p =? 0)%nat
   then raise ZeroDivisionError
   else modify (set_index ((index p + 1) mod size p))).

(** [buffer[i:j]] for [0 <= i <= j]. *)
Definition slice {B} (l : list B) (i j : nat) : list B := take (j - i) (drop i l).

(** [get_new(n)]: it only reads; [None] is Python's [None]. *)
Definition get_new (n : nat) : M data_pool (option (list (option A))) :=
  p <- get ;;
  if (n <=? index p)%nat
  then ret (Some (slice (buffer p) (index p - n) (index p)))
  else ret None.

(** The buffer has [size] slots and the cursor points at one of them:
    what [__init__] sets up and [append] keeps. *)
Definition wf (p : data_pool) : Prop :=
  length (buffer p) = size p /\ (index p < size p)%nat.

(** Two calls of [get_new(n)] in a row, nothing in between. *)
Definition get_new_twice (n : nat)
  : M data_pool (option (list (option A)) * option (list (option A))) :=
  first <- get_new n ;;
  second <- get_new n ;;
  ret (first, second).

(** One [append] per item, in order. *)
Fixpoint pushes (items : list A) : M data_pool unit :=
  match items with
  | [] => ret tt
  | x :: rest => append x ;; pushes rest
  end.

End Samples.

Arguments data_pool A : clear implicits.

(** [buffer_size = 10; pool_data = data_pool(buffer_size)] *)
Definition buffer_size : nat := 10.
Definition pool_data {A} : data_pool A := new buffer_size.

End Pool.

(** ** The payload and the uploader: class [DataUploader] *)

Module Upload.
Import Py.
Local Open Scope py_scope.

(** The dictionary sent to the server; [U] is the type of [user_data]. *)
Record payload (U : Type) : Type := {
  device_id : string;
  position_x : string;
  position_y : string;
  time_stamp : string;
  user_data : U
}.
Arguments device_id {U} p.
Arguments position_x {U} p.
Arguments position_y {U} p.
Arguments time_stamp {U} p.
Arguments user_data {U} p.

(** [device_id = "3"] *)
Definition the_device_id : string := "3".

(** The clock at a call: [time.time()] and the local time formatted as
    year-month-day hour:minute:second, the text [time_str] is built from. *)
Record clock : Type := {
  now : Q;
  now_str : string
}.

(** The class attributes that cache the time text. *)
Record time_cache : Type := {
  _last_time_str : string;
  _last_time_sec : Q
}.

Definition no_cache : time_cache := {| _last_time_str := ""; _last_time_sec := 0 |}.

(** [_get_current_time_str]: the cached text is used while less than [ttl]
    seconds old (1.0 in GPS_WIFI_Blue_3.py, 2.0 in GPS_WIFI_Blue_4_.py). *)
Definition _get_current_time_str (ttl : Q) (c : clock) : M time_cache string :=
  t <- get ;;
  if negb (Qle_bool ttl (now c - _last_time_sec t))
  then ret (_last_time_str t)
  else
    modify (fun _ => {| _last_time_str := now_str c; _last_time_sec := now c |}) ;;
    ret (now_str c).

End Upload.

(** ** The upload scheduler: the loop of [main] *)

Module Main.
Import Py.
Local Open Scope py_scope.

(** The constants [main] sets before its loop. *)
Record config : Type := {
  min_upload_interval : Q;
  max_upload_interval : Q;
  max_consecutive_failures : nat
}.

(** GPS_WIFI_Blue_3.py: 0.5, 5.0 and 3. *)
Definition config_v3 : config := {|
  min_upload_interval := 1 # 2;
  max_upload_interval := 5;
  max_consecutive_failures := 3
|}.

(** GPS_WIFI_Blue_4_.py: 0.5, 3.0 and 3. *)
Definition config_v4 : config := {|
  min_upload_interval := 1 # 2;
  max_upload_interval := 3;
  max_consecutive_failures := 3
|}.

(** The variables of the loop.  Halving and doubling are exact on binary
    floats, so the interval is kept as a rational. *)
Record locals : Type := {
  last_upload_time : Q;
  current_upload_interval : Q;
  consecutive_failures : nat
}.

Definition start (cfg : config) : locals := {|
  last_upload_time := 0;
  current_upload_interval := min_upload_interval cfg;
  consecutive_failures := 0
|}.

(** [current_time - last_upload_time >= current_upload_interval] *)
Definition due (current_time : Q) (l : locals) : bool :=
  Qle_bool (current_upload_interval l) (current_time - last_upload_time l).

(** The branch taken when [upload_data()] returned [True]. *)
Definition on_success (cfg : config) (current_time : Q) (l : locals) : locals := {|
  last_upload_time := current_time;
  current_upload_interval := min_upload_interval cfg;
  consecutive_failures := 0
|}.

(** The branch taken when [upload_data()] returned [False]. *)
Definition on_failure (cfg : config) (l : locals) : locals :=
  let failures := S (consecutive_failures l) in
  if (max_consecutive_failures cfg <=? failures)%nat then {|
    last_upload_time := last_upload_time l;
    current_upload_interval :=
      Qmin (current_upload_interval l * 2) (max_upload_interval cfg);
    consecutive_failures := 0
  |} else {|
    last_upload_time := last_upload_time l;
    current_upload_interval := current_upload_interval l;
    consecutive_failures := failures
  |}.

(** Steps 2 and 3 of the loop body, over any uploader: [upload_data] runs
    only when the interval has passed and WiFi is connected; without WiFi a
    reconnection is tried and no variable of the loop changes. *)
Definition upload_step {W} (cfg : config) (current_time : Q) (connected : bool)
  (upload_data : M W bool) (l : locals) : M W locals :=
  if due current_time l then
    if connected then
      ok <- upload_data ;;
      ret (if ok then on_success cfg current_time l else on_failure cfg l)
    else ret l
  else ret l.

(** What one pass of the loop meets: the clock, the WiFi link, and what
    [upload_data()] returns if it is called. *)
Record event : Type := {
  current_time : Q;
  connected : bool;
  upload_ok : bool
}.

(** The variables of the loop after one pass. *)
Definition tick (cfg : config) (e : event) (l : locals) : locals :=
  if due (current_time e) l then
    if connected e then
      if upload_ok e then on_success cfg (current_time e) l else on_failure cfg l
    else l
  else l.

(** Whether the pass calls [upload_data()]. *)
Definition attempts (e : event) (l : locals) : bool :=
  due (current_time e) l && connected e.

Definition run (cfg : config) (events : list event) (l : locals) : locals :=
  fold_left (fun l e => tick cfg e l) events l.

(** [2^k] as a rational. *)
Definition pow2 (k : nat) : Q := inject_Z (2 ^ Z.of_nat k).

(** The number of passes of a run that call [upload_data()]. *)
Fixpoint attempt_count (cfg : config) (events : list event) (l : locals) : nat :=
  match events with
  | [] => 0
  | e :: rest =>
      (if attempts e l then 1 else 0) + attempt_count cfg rest (tick cfg e l)
  end.

End Main.

(** ** GPS_WIFI_Blue_3.py: payload, upload and loop body *)

Module V3.
Import Py.
Local Open Scope py_scope.

(** The globals and class attributes the uploader reads and assigns. *)
Record world : Type := {
  gps : GPS.state;
  user_data : list string;
  ble_data_received : bool;
  cache : Upload.time_cache
}.

Definition set_gps (g : GPS.state) (w : world) : world :=
  {| gps := g; user_data := user_data w;
     ble_data_received := ble_data_received w; cache := cache w |}.

Definition set_cache (t : Upload.time_cache) (w : world) : world :=
  {| gps := gps w; user_data := user_data w;
     ble_data_received := ble_data_received w; cache := t |}.

(** [gps_data_valid = False; ble_data_received = False] *)
Definition clear_flags (w : world) : world :=
  {| gps := {| GPS.gps_data_valid := false;
               GPS.nmea_x := GPS.nmea_x (gps w); GPS.nmea_y := GPS.nmea_y (gps w);
               GPS.last_x := GPS.last_x (gps w); GPS.last_y := GPS.last_y (gps w);
               GPS.self_nmea_x := GPS.self_nmea_x (gps w);
               GPS.self_nmea_y := GPS.self_nmea_y (gps w);
               GPS.last_gps_time := GPS.last_gps_time (gps w) |};
     user_data := user_data w;
     ble_data_received := false;
     cache := cache w |}.

(** [user_data[-200:] if len(user_data) > 200 else user_data] *)
Definition last_200 (l : list string) : list string :=
  if (200 <? length l)%nat then drop (length l - 200) l else l.

(** [generate_payload].  The payload holds strings only, so the
    [json.dumps] test under [__debug__] passes. *)
Definition generate_payload (c : Upload.clock)
  : M world (option (Upload.payload (list string))) :=
  w <- get ;;
  if negb (GPS.gps_data_valid (gps w)) || negb (ble_data_received w) then ret None
  else
    time_str <- zoom cache set_cache (Upload._get_current_time_str 1 c) ;;
    ret (Some {|
      Upload.device_id := Upload.the_device_id;
      Upload.position_x := format_6f (GPS.nmea_x (gps w));
      Upload.position_y := format_6f (GPS.nmea_y (gps w));
      Upload.time_stamp := time_str;
      Upload.user_data := last_200 (user_data w)
    |}).

(** [upload_data]; [http_post] is the transport, which returns [True] or
    [False] and raises nothing. *)
Definition upload_data (c : Upload.clock)
  (http_post : Upload.payload (list string) -> bool) : M world bool :=
  w <- get ;;
  if negb (GPS.gps_data_valid (gps w)) || negb (ble_data_received w) then ret false
  else
    payload <- generate_payload c ;;
    match payload with
    | None => ret false
    | Some p =>
        if http_post p then modify clear_flags ;; ret true
        else ret false
    end.

(** A state in which both flags are set: the scenario sentence was parsed
    and a batch of BLE data arrived. *)
Definition ready_world : world := {|
  gps := exec (GPS._parse_gll Py.float 0 GPS.scenario) GPS.init;
  user_data := ["a"; "b"];
  ble_data_received := true;
  cache := Upload.no_cache
|}.

(** The same with a sentence whose coordinate fields read [nan]. *)
Definition nan_world : world := {|
  gps := exec (GPS._parse_gll Py.float 0 "$GPGLL,nan,N,nan,E,000000.000,A") GPS.init;
  user_data := ["a"; "b"];
  ble_data_received := true;
  cache := Upload.no_cache
|}.

(** What one pass of the loop of [main] meets. *)
Record env : Type := {
  uart : GPS.uart;
  clock : Upload.clock;
  wifi_connected : bool;
  http_post : Upload.payload (list string) -> bool
}.

(** The body of [while True] in [main]: the GPS poll, then the upload step;
    the handler of the loop catches whatever is raised. *)
Definition main_iteration (float : string -> exn + pyfloat) (cfg : Main.config)
  (e : env) (l : Main.locals) : M world Main.locals :=
  try_except
    (zoom gps set_gps (GPS.read_gps_data float 1 (Upload.now (clock e)) (uart e)) ;;
     Main.upload_step cfg (Upload.now (clock e)) (wifi_connected e)
       (upload_data (clock e) (http_post e)) l)
    (fun _ => ret l).

End V3.

(** ** GPS_WIFI_Blue_2.py: payload *)

Module V2.
Import Py.
Local Open Scope py_scope.

(** The globals [generate_payload] reads. *)
Record world : Type := {
  gps : GPS.state;
  user_data : list string;
  ble_data_received : bool
}.

(** [ensure_json_serializable] on a list of texts: each item is a [str]
    and is returned as it is. *)
Definition ensure_json_serializable (data : list string) : list string :=
  (fun item => item) <$> data.

(** [generate_payload].  It tests no flag; [user_data_copy] is computed and
    not used; the positions are printed with [str]; [json.dumps] of a
    payload of texts raises nothing. *)
Definition generate_payload (c : Upload.clock)
  : M world (option (Upload.payload (list string))) :=
  try_except
    (w <- get ;;
     let user_data_copy := ensure_json_serializable (user_data w) in
     let time_str := Upload.now_str c in
     ret (Some {|
       Upload.device_id := Upload.the_device_id;
       Upload.position_x := str_float (GPS.nmea_x (gps w));
       Upload.position_y := str_float (GPS.nmea_y (gps w));
       Upload.time_stamp := time_str;
       Upload.user_data := user_data w
     |}))
    (fun _ => ret None).

(** Both flags set: the scenario sentence was parsed and a batch of BLE
    data arrived. *)
Definition ready_world : world := {|
  gps := exec (GPS._parse_gll_v2 Py.float GPS.scenario) GPS.init;
  user_data := ["a"; "b"];
  ble_data_received := true
|}.

End V2.

(** ** GPS_WIFI_Blue_4_.py: payload from the ring buffer *)

Module V4.
Import Py.
Local Open Scope py_scope.

Section Samples.

Context {A : Type}.

Record world : Type := {
  gps : GPS.state;
  pool_data : Pool.data_pool A;
  cache : Upload.time_cache
}.

Definition set_pool (p : Pool.data_pool A) (w : world) : world :=
  {| gps := gps w; pool_data := p; cache := cache w |}.

Definition set_cache (t : Upload.time_cache) (w : world) : world :=
  {| gps := gps w; pool_data := pool_data w; cache := t |}.

(** [generate_payload]: the only test is [pool_data.get_new() == None];
    [user_data] is a second call of [get_new()]. *)
Definition generate_payload (c : Upload.clock)
  : M world (option (Upload.payload (option (list (option A))))) :=
  ready <- zoom pool_data set_pool (Pool.get_new 4) ;;
  match ready with
  | None => ret None
  | Some _ =>
      time_str <- zoom cache set_cache (Upload._get_current_time_str 2 c) ;;
      w <- get ;;
      batch <- zoom pool_data set_pool (Pool.get_new 4) ;;
      ret (Some {|
        Upload.device_id := Upload.the_device_id;
        Upload.position_x := format_6f (GPS.nmea_x (gps w));
        Upload.position_y := format_6f (GPS.nmea_y (gps w));
        Upload.time_stamp := time_str;
        Upload.user_data := batch
      |})
  end.

End Samples.

Arguments world A : clear implicits.

End V4.

(** ** The BLE write handlers: [_irq_callback] of GPS_WIFI_Blue_2.py and
    GPS_WIFI_Blue_3.py *)

Module BLE.
Import Py.
Local Open Scope py_scope.

(** [received_data.decode('ascii')] succeeds when every byte is below 128;
    a string stands for the bytes as well as for the decoded text. *)
Fixpoint is_ascii (bytes : string) : bool :=
  match bytes with
  | EmptyString => true
  | String c rest => (N_of_ascii c <? 128)%N && is_ascii rest
  end.

(** The globals of the handler and the fields of the service object;
    [up_len] exists in GPS_WIFI_Blue_3.py only. *)
Record state : Type := {
  connected : bool;
  list_data : list string;
  user_data : list string;
  ble_data_received : bool;
  data_len : nat;
  up_len : nat
}.

Definition init : state := {|
  connected := false;
  list_data := [];
  user_data := [];
  ble_data_received := false;
  data_len := 0;
  up_len := 0
|}.

Definition set_connected (b : bool) (st : state) : state :=
  {| connected := b; list_data := list_data st; user_data := user_data st;
     ble_data_received := ble_data_received st; data_len := data_len st;
     up_len := up_len st |}.

(** [list_data.append(data_str); self.data_len += 1] *)
Definition store (data_str : string) (st : state) : state :=
  {| connected := connected st;
     list_data := list_data st ++ [data_str];
     user_data := user_data st;
     ble_data_received := ble_data_received st;
     data_len := data_len st + 1;
     up_len := up_len st |}.

(** [list_data[i] = data_str; self.data_len += 1; self.up_len += 1] *)
Definition overwrite (i : nat) (data_str : string) (st : state) : state :=
  {| connected := connected st;
     list_data := <[i := data_str]> (list_data st);
     user_data := user_data st;
     ble_data_received := ble_data_received st;
     data_len := data_len st + 1;
     up_len := up_len st + 1 |}.

(** [user_data = batch; ble_data_received = True; self.up_len = 0] *)
Definition publish (batch : list string) (st : state) : state :=
  {| connected := connected st;
     list_data := list_data st;
     user_data := batch;
     ble_data_received := true;
     data_len := data_len st;
     up_len := 0 |}.

(** The handler of the outer [try] in GPS_WIFI_Blue_3.py:
    [self.data_len = 0; self.up_len = 0; list_data.clear()] *)
Definition reset (st : state) : state :=
  {| connected := connected st;
     list_data := [];
     user_data := user_data st;
     ble_data_received := ble_data_received st;
     data_len := 0;
     up_len := 0 |}.

(** [user_data = list_data.copy(); ble_data_received = True;
    list_data.clear(); self.data_len = 0] of GPS_WIFI_Blue_2.py *)
Definition hand_over (st : state) : state :=
  {| connected := connected st;
     list_data := [];
     user_data := list_data st;
     ble_data_received := true;
     data_len := 0;
     up_len := up_len st |}.

(** [l[c:] + l[:c]] *)
Definition rotate {B} (c : nat) (l : list B) : list B := drop c l ++ take c l.

(** A write event in GPS_WIFI_Blue_3.py; [list_len] is the global of that
    name (400 there).  While the list is shorter than [list_len] the text is
    appended; afterwards it replaces the oldest entry, and every 200th
    replacement publishes the list, rotated at the cursor, as [user_data].
    Bytes that are not ASCII give the warning only; any other exception
    empties the list. *)
Definition on_write_v3 (list_len : nat) (received_data : string) : M state unit :=
  try_except
    (if is_ascii received_data then
       let data_str := received_data in
       st <- get ;;
       if (list_len <=? data_len st)%nat then
         (if (list_len =? 0)%nat then raise ZeroDivisionError else ret tt) ;;
         let i := (data_len st mod list_len)%nat in
         (if (i <? length (list_data st))%nat
          then modify (overwrite i data_str)
          else raise IndexError) ;;
         st1 <- get ;;
         if (200 <=? up_len st1)%nat then
           let c := (data_len st1 mod list_len)%nat in
           modify (publish (take list_len (rotate c (list_data st1))))
         else ret tt
       else modify (store data_str)
     else ret tt)
    (fun _ => modify reset).

(** A write event in GPS_WIFI_Blue_2.py ([list_len] is 512 there): empty
    data is reported and dropped; when the list is full it is handed over
    and emptied, and the data of this very event is not looked at;
    otherwise the decoded text is appended. *)
Definition on_write_v2 (list_len : nat) (received_data : string) : M state unit :=
  if (received_data =? "")%string then ret tt
  else
    st <- get ;;
    if (data_len st =? list_len)%nat then modify hand_over
    else if is_ascii received_data then modify (store received_data)
    else ret tt.

(** [_irq_callback(event, data)]: 1 is a connection, 2 a disconnection
    (advertising starts again), 3 a write; [received_data] is what
    [gatts_read] returns for a write. *)
Definition _irq_callback (on_write : string -> M state unit)
  (event : nat) (received_data : string) : M state unit :=
  match event with
  | 1 => modify (set_connected true)
  | 2 => modify (set_connected false)
  | 3 => on_write received_data
  | _ => ret tt
  end.

(** Write events one after the other. *)
Definition writes (on_write : string -> M state unit) (data : list string)
  (st : state) : state :=
  fold_left (fun st d => exec (on_write d) st) data st.

End BLE.

(** ** Calls of [_get_current_time_str] in a row *)

Module Clock.
Import Py.
Local Open Scope py_scope.

(** One call per clock reading; the texts returned, in order. *)
Fixpoint time_strs (ttl : Q) (calls : list Upload.clock)
  : M Upload.time_cache (list string) :=
  match calls with
  | [] => ret []
  | c :: rest =>
      t <- Upload._get_current_time_str ttl c ;;
      ts <- time_strs ttl rest ;;
      ret (t :: ts)
  end.

End Clock.

(** ** GPS_WIFI_Blue_4_.py: [upload_data] and the loop body *)

Module V4Loop.
Import Py.
Local Open Scope py_scope.

(** A name that is bound nowhere the function can see. *)
Inductive unbound : Type :=
| NameError (name : string).

Section Samples.

Context {A : Type}.

(** The [try] block of [upload_data].  After the payload test the block
    reads [wifi], which is a local variable of [main] and no global of the
    module: the lookup fails before the transport is reached. *)
Definition upload_try (c : Upload.clock) : M (V4.world A) (unbound + bool) :=
  payload <- V4.generate_payload c ;;
  match payload with
  | None => ret (inr false)
  | Some p =>
      match Upload.user_data p with
      | None => ret (inr false)
      | Some [] => ret (inr false)
      | Some (_ :: _) => ret (inl (NameError "wifi"))
      end
  end.

(** [upload_data]: the handler of the [try] returns [False] for every
    exception. *)
Definition upload_data (c : Upload.clock) : M (V4.world A) bool :=
  r <- try_except (upload_try c) (fun _ => ret (inr false)) ;;
  ret (match r with
       | inr b => b
       | inl _ => false
       end).

Definition set_gps (g : GPS.state) (w : V4.world A) : V4.world A :=
  {| V4.gps := g; V4.pool_data := V4.pool_data w; V4.cache := V4.cache w |}.

(** What one pass of the loop of [main] meets. *)
Record env : Type := {
  uart : GPS.uart;
  clock : Upload.clock;
  wifi_connected : bool
}.

(** The body of [while True] in [main]. *)
Definition main_iteration (float : string -> exn + pyfloat) (cfg : Main.config)
  (e : env) (l : Main.locals) : M (V4.world A) Main.locals :=
  try_except
    (zoom V4.gps set_gps (GPS.read_gps_data float 2 (Upload.now (clock e)) (uart e)) ;;
     Main.upload_step cfg (Upload.now (clock e)) (wifi_connected e)
       (upload_data (clock e)) l)
    (fun _ => ret l).

(** Passes of the loop one after the other. *)
Fixpoint main_loop (float : string -> exn + pyfloat) (cfg : Main.config)
  (es : list env) (l : Main.locals) : M (V4.world A) Main.locals :=
  match es with
  | [] => ret l
  | e :: rest =>
      l' <- main_iteration float cfg e l ;;
      main_loop float cfg rest l'
  end.

End Samples.

End V4Loop.

(** ** [WiFiManager.connect] *)

Module WiFi.

(** The station interface as the method sees it: the answer of each call
    of [isconnected()], by the number of calls made before. *)
Definition link : Type := nat -> bool.

(** What a call of [connect] did: its result, the number of
    [isconnected()] calls, the number of [time.sleep(1)] calls, and whether
    [sta_if.connect] was called. *)
Record outcome : Type := {
  result : bool;
  polls : nat;
  sleeps : nat;
  dialled : bool
}.

(** [for _ in range(n): if isconnected(): break; time.sleep(1)], from the
    poll count [k] and the sleep count [z]; it returns the two counts. *)
Fixpoint wait (isconnected : link) (n k z : nat) : nat * nat :=
  match n with
  | O => (k, z)
  | S n' =>
      if isconnected k then (S k, z)
      else wait isconnected n' (S k) (S z)
  end.

Definition connect (isconnected : link) : outcome :=
  if isconnected 0 then
    {| result := isconnected 1; polls := 2; sleeps := 0; dialled := false |}
  else
    let '(k, z) := wait isconnected 10 1 0 in
    {| result := isconnected k; polls := S k; sleeps := z; dialled := true |}.

End WiFi.

(** ** Reading back a printed number *)

Module Reading.

(** The number a run of decimal digits stands for, continued from [acc]:
    what [Py.digits] accumulates over the text of [d]. *)
Fixpoint uint_acc (d : Decimal.uint) (acc : N) : N :=
  match d with
  | Decimal.Nil => acc
  | Decimal.D0 l => uint_acc l (10 * acc + 0)
  | Decimal.D1 l => uint_acc l (10 * acc + 1)
  | Decimal.D2 l => uint_acc l (10 * acc + 2)
  | Decimal.D3 l => uint_acc l (10 * acc + 3)
  | Decimal.D4 l => uint_acc l (10 * acc + 4)
  | Decimal.D5 l => uint_acc l (10 * acc + 5)
  | Decimal.D6 l => uint_acc l (10 * acc + 6)
  | Decimal.D7 l => uint_acc l (10 * acc + 7)
  | Decimal.D8 l => uint_acc l (10 * acc + 8)
  | Decimal.D9 l => uint_acc l (10 * acc + 9)
  end.

(** No character of the text is white space. *)
Fixpoint no_space (s : string) : bool :=
  match s with
  | EmptyString => true
  | String c s' => negb (Py.is_space c) && no_space s'
  end.

(** The rational a decimal numeral denotes, digit for digit: the text is
    taken apart as [Py.float] does it and the decimal is kept as it is, with
    no rounding to a machine float.  [None] for a text that is no finite
    numeral. *)
Definition numeral_value (text : string) : option Q :=
  match Py.float text with
  | inr x => Py.to_Q x
  | inl _ => None
  end.

(** [text] is a decimal numeral, and the number it denotes is within half
    a unit of the sixth decimal place of the finite float [x]. *)
Definition close_numeral (x : Py.pyfloat) (text : string) : Prop :=
  exists v v' : Q,
    Py.to_Q x = Some v /\
    numeral_value text = Some v' /\
    (v - (1 # 2000000) <= v' /\ v' <= v + (1 # 2000000))%Q.

End Reading.

(** * Properties *)

(** ** Built-ins on concrete inputs *)

Example split_gll :
  Py.split "," GPS.scenario
  = ["$xxGLL"; "3723.2475"; "N"; "12158.3416"; "W"; "161229.487"; "A"; "A*41"].
Proof. reflexivity. Qed.

Example split_crlf :
  Py.split GPS.CRLF
    (String "a" (String "013" (String "010" (String "013" (String "010" "b")))))
  = ["a"; ""; "b"].
Proof. reflexivity. Qed.

Example float_lat : Py.float "3723.2475" = inr (Py.Fin false 37232475 (-4)).
Proof. reflexivity. Qed.

Example float_exp : Py.float " -1.5e3 " = inr (Py.Fin true 15 2).
Proof. reflexivity. Qed.

Example float_nan : Py.float "NaN" = inr Py.NaN.
Proof. reflexivity. Qed.

Example float_bad : Py.float "12a" = inl Py.ValueError.
Proof. reflexivity. Qed.

Example float_point : Py.float "." = inl Py.ValueError.
Proof. reflexivity. Qed.

Example format_lat : Py.format_6f (Py.Fin false 37232475 (-4)) = "3723.247500".
Proof. reflexivity. Qed.

Example format_round : Py.format_6f (Py.Fin true 1234567895 (-9)) = "-1.234568".
Proof. reflexivity. Qed.

(** ** The GLL parser *)

(** Case analysis on the next [match] or [if] of the goal. *)
Ltac step_match :=
  match goal with
  | |- context [match ?x with _ => _ end] =>
      lazymatch x with
      | context [match _ with _ => _ end] => fail
      | _ => destruct x eqn:?
      end
  end.

Ltac unfold_py :=
  unfold Py.try_except, Py.bind, Py.lift, Py.ret, Py.raise, Py.get, Py.modify,
    Py.exec in *.




(** On a void sentence the parser leaves the state or falls back on the
    history. *)
Lemma parser_void v float now s g :
  GPS.void s ->
  Py.exec (GPS.parser v float now s) g = g \/
  Py.exec (GPS.parser v float now s) g = GPS.use_history g.
Proof.
  intros (st & Hst & Hne). unfold GPS.status in Hst.
  assert (Hlen : (6 < length (Py.split "," s))%nat)
    by (apply lookup_lt_is_Some; eauto).
  assert (Hneq : (st =? "A")%string = false) by (apply String.eqb_neq; exact Hne).
  assert (E1 : (6 <=? length (Py.split "," s))%nat = true) by (apply Nat.leb_le; lia).
  assert (E2 : (length (Py.split "," s) <? 7)%nat = false) by (apply Nat.ltb_ge; lia).
  destruct v; unfold GPS.parser, GPS._parse_gll_v2, GPS._parse_gll, Py.index;
    unfold_py; rewrite ?E1, ?E2, Hst, Hneq; cbn [negb];
    [ destruct (Py.eq0 (GPS.last_x g)) | destruct (Py.ne0 (GPS.last_x g)) .. ];
    simpl; auto.
Qed.



Lemma parser_true_status v float now s g g' :
  GPS.parser v float now s g = (Py.Ok true, g') -> GPS.status s = Some "A".
Proof.
  unfold GPS.status.
  destruct v; unfold GPS.parser, GPS._parse_gll_v2, GPS._parse_gll, Py.index;
    unfold_py;
    destruct (Py.split "," s !! 6) as [st|] eqn:Hst;
    try destruct (String.eqb_spec st "A") as [-> | Hne];
    repeat (step_match; simpl in *; try discriminate); auto.
Qed.

(** What an accepted sentence commits: the second and fourth field read by
    [float], negated when the hemisphere field contains S or W. *)
Lemma parser_true_coordinates v float now s g g' :
  GPS.parser v float now s g = (Py.Ok true, g') ->
  exists p1 p2 p3 p4 lat lon,
    Py.split "," s !! 1 = Some p1 /\ Py.split "," s !! 2 = Some p2 /\
    Py.split "," s !! 3 = Some p3 /\ Py.split "," s !! 4 = Some p4 /\
    float p1 = inr lat /\ float p3 = inr lon /\
    GPS.nmea_y g' = (if Py.contains "S" p2 then Py.fneg lat else lat) /\
    GPS.nmea_x g' = (if Py.contains "W" p4 then Py.fneg lon else lon).
Proof.
  destruct v; unfold GPS.parser, GPS._parse_gll_v2, GPS._parse_gll, Py.index;
    unfold_py;
    destruct (Py.split "," s !! 1) as [p1|];
    destruct (Py.split "," s !! 2) as [p2|];
    destruct (Py.split "," s !! 3) as [p3|];
    destruct (Py.split "," s !! 4) as [p4|];
    repeat (step_match; simpl in *; try discriminate);
    intros [= <-]; simpl;
    do 6 eexists;
    do 4 (split; [reflexivity|]);
    do 2 (split; [eassumption|]);
    repeat match goal with
           | H : Py.contains _ _ = _ |- _ => rewrite H; clear H
           end;
    split; reflexivity.
Qed.

(** C1, as the code has it: on the scenario sentence every variant of the
    parser returns [True], sets the flag and stores the fields as they are
    read, latitude 3723.2475 and longitude -12158.3416 (the hemisphere W
    negates the longitude); the degrees-and-minutes notation of the
    sentence is not converted to decimal degrees. *)
Theorem scenario_fix_is_raw_field :
  forall (v : GPS.variant) (now : Q),
    fst (GPS.parser v Py.float now GPS.scenario GPS.init) = Py.Ok true /\
    GPS.gps_data_valid (Py.exec (GPS.parser v Py.float now GPS.scenario) GPS.init) = true /\
    GPS.nmea_y (Py.exec (GPS.parser v Py.float now GPS.scenario) GPS.init)
      = Py.Fin false 37232475 (-4) /\
    GPS.nmea_x (Py.exec (GPS.parser v Py.float now GPS.scenario) GPS.init)
      = Py.Fin true 121583416 (-4) /\
    Py.has_value (Py.Fin false 37232475 (-4)) (37232475 # 10000) /\
    Py.has_value (Py.Fin true 121583416 (-4)) (- (121583416 # 10000)).
Proof.
  intros v now.
  destruct v; (repeat split; try reflexivity).
Qed.

(** C1, as stated, fails: after the scenario sentence the latitude is not
    37.387458 and the longitude is not -121.972693. *)
Lemma scenario_fix_not_decimal_degrees :
  ~ (Py.has_value
       (GPS.nmea_y (Py.exec (GPS._parse_gll Py.float 0 GPS.scenario) GPS.init))
       (37387458 # 1000000) /\
     Py.has_value
       (GPS.nmea_x (Py.exec (GPS._parse_gll Py.float 0 GPS.scenario) GPS.init))
       (- (121972693 # 1000000)) /\
     GPS.gps_data_valid (Py.exec (GPS._parse_gll Py.float 0 GPS.scenario) GPS.init)
       = true).
Proof.
  intros [H _]. vm_compute in H. discriminate H.
Qed.



Lemma void_sentence_is_void : GPS.void GPS.void_sentence.
Proof. exists "V". split; [reflexivity | discriminate]. Qed.



(** ** Six fields in GPS_WIFI_Blue_2.py *)

Lemma parse_gll_v2_six_fields float s g :
  length (Py.split "," s) = 6%nat ->
  GPS._parse_gll_v2 float s g = (Py.Raise Py.IndexError, g).
Proof.
  intros Hlen. unfold GPS._parse_gll_v2, Py.index. unfold_py.
  rewrite Hlen.
  rewrite (lookup_ge_None_2 (Py.split "," s) 6) by lia.
  reflexivity.
Qed.

Lemma contains_GLL_nonempty s :
  Py.contains "GLL" s = true -> negb (s =? "")%string && Py.contains "GLL" s = true.
Proof. intros H. rewrite H. destruct s; [discriminate H | reflexivity]. Qed.

(** Once a sentence raises, the sentences after it have no part in the
    poll. *)
Lemma poll_sentences_raise parse e s pre rest g :
  negb (s =? "")%string && Py.contains "GLL" s = true ->
  (forall g', parse s g' = (Py.Raise e, g')) ->
  GPS.poll_sentences parse (pre ++ s :: rest) g = GPS.poll_sentences parse pre g.
Proof.
  intros Hsel Hraise. unfold GPS.poll_sentences. unfold_py.
  revert g. induction pre as [|p pre IH]; intros g; simpl; unfold_py.
  - rewrite Hsel, Hraise. reflexivity.
  - destruct (negb (p =? "")%string && Py.contains "GLL" p); [|apply IH].
    destruct (parse p g) as [[[|]|] g']; auto.
Qed.

Lemma poll_sentences_returns parse ss g :
  fst (GPS.poll_sentences parse ss g) = Py.Ok tt.
Proof.
  unfold GPS.poll_sentences. unfold_py.
  destruct (GPS.for_sentences parse ss g) as [[[]|] g']; reflexivity.
Qed.

(** C10: in GPS_WIFI_Blue_2.py a sentence of exactly six fields makes
    [_parse_gll] raise [IndexError] with the state untouched; in
    [read_gps_data] the exception is caught, the call returns normally, and
    the poll ends as if the chunk had stopped before that sentence: the
    sentences after it are not parsed. *)
Theorem six_fields_end_the_poll :
  forall (float : string -> Py.exn + Py.pyfloat) (s raw : string)
         (pre rest : list string) (g : GPS.state),
    length (Py.split "," s) = 6%nat ->
    Py.contains "GLL" s = true ->
    Py.split GPS.CRLF raw = (pre ++ s :: rest)%list ->
    GPS._parse_gll_v2 float s g = (Py.Raise Py.IndexError, g) /\
    fst (GPS.read_gps_data_v2 float (GPS.Text raw) g) = Py.Ok tt /\
    GPS.read_gps_data_v2 float (GPS.Text raw) g
      = GPS.poll_sentences (GPS._parse_gll_v2 float) pre g.
Proof.
  intros float s raw pre rest g Hlen Hgll Hraw.
  split; [apply parse_gll_v2_six_fields, Hlen|].
  split; [apply poll_sentences_returns|].
  unfold GPS.read_gps_data_v2. rewrite Hraw.
  apply poll_sentences_raise with (e := Py.IndexError).
  - apply contains_GLL_nonempty, Hgll.
  - intros g'. apply parse_gll_v2_six_fields, Hlen.
Qed.

Lemma six_fields_end_the_poll_witness :
  length (Py.split "," "$GPGLL,1,N,2,E,3") = 6%nat /\
  GPS._parse_gll_v2 Py.float "$GPGLL,1,N,2,E,3" GPS.init
    = (Py.Raise Py.IndexError, GPS.init) /\
  fst (GPS.read_gps_data_v2 Py.float
         (GPS.Text ("$GPRMC,0" ++ GPS.CRLF ++ "$GPGLL,1,N,2,E,3" ++ GPS.CRLF ++ GPS.scenario))
         GPS.init) = Py.Ok tt /\
  GPS.read_gps_data_v2 Py.float
    (GPS.Text ("$GPRMC,0" ++ GPS.CRLF ++ "$GPGLL,1,N,2,E,3" ++ GPS.CRLF ++ GPS.scenario))
    GPS.init
  = GPS.poll_sentences (GPS._parse_gll_v2 Py.float) ["$GPRMC,0"] GPS.init.
Proof.
  split; [reflexivity|].
  apply (six_fields_end_the_poll Py.float "$GPGLL,1,N,2,E,3"
           ("$GPRMC,0" ++ GPS.CRLF ++ "$GPGLL,1,N,2,E,3" ++ GPS.CRLF ++ GPS.scenario)
           ["$GPRMC,0"] [GPS.scenario] GPS.init);
    reflexivity.
Defined.

(** The scenario sentence after the six-field one is not parsed: the state
    is still the initial one. *)
Example six_fields_hide_the_fix :
  Py.exec (GPS.read_gps_data_v2 Py.float
             (GPS.Text ("$GPGLL,1,N,2,E,3" ++ GPS.CRLF ++ GPS.scenario))) GPS.init
  = GPS.init.
Proof. reflexivity. Qed.

(** ** The ring buffer *)

Section PoolFacts.

Context {A : Type}.
Implicit Types (p : Pool.data_pool A) (x : A) (items : list A).

Lemma new_wf size : (0 < size)%nat -> Pool.wf (Pool.new (A := A) size).
Proof. intros H. split; simpl; [apply length_replicate | exact H]. Qed.

Lemma append_ok x p :
  Pool.wf p ->
  Pool.append x p =
    (Py.Ok tt,
     {| Pool.size := Pool.size p;
        Pool.buffer := <[Pool.index p := Some x]> (Pool.buffer p);
        Pool.index := (Pool.index p + 1) mod Pool.size p |}).
Proof.
  intros [Hlen Hidx]. unfold Pool.append. unfold_py.
  assert (E1 : (Pool.index p <? length (Pool.buffer p))%nat = true)
    by (apply Nat.ltb_lt; lia).
  assert (E2 : (Pool.size p =? 0)%nat = false) by (apply Nat.eqb_neq; lia).
  rewrite E1. cbn [Pool.size Pool.set_buffer]. rewrite E2. reflexivity.
Qed.

Lemma append_wf x p : Pool.wf p -> Pool.wf (Py.exec (Pool.append x) p).
Proof.
  intros Hwf. unfold Py.exec. rewrite append_ok by exact Hwf.
  destruct Hwf as [Hlen Hidx]. split; simpl.
  - rewrite length_insert. exact Hlen.
  - apply Nat.mod_upper_bound. lia.
Qed.

(** Items pushed without passing the end of the buffer land side by side
    from the cursor on. *)
Lemma pushes_block items : forall p,
  Pool.wf p ->
  (Pool.index p + length items <= Pool.size p)%nat ->
  Pool.pushes items p =
    (Py.Ok tt,
     {| Pool.size := Pool.size p;
        Pool.buffer :=
          take (Pool.index p) (Pool.buffer p) ++ (Some <$> items)
            ++ drop (Pool.index p + length items) (Pool.buffer p);
        Pool.index := (Pool.index p + length items) mod Pool.size p |}).
Proof.
  induction items as [|x items IH]; intros p Hwf Hfit; simpl.
  - destruct Hwf as [Hlen Hidx]. unfold Py.ret.
    rewrite Nat.add_0_r, take_drop, Nat.mod_small by lia.
    destruct p; reflexivity.
  - unfold Py.bind. rewrite append_ok by exact Hwf.
    pose proof (append_wf x p Hwf) as Hwf'.
    unfold Py.exec in Hwf'. rewrite append_ok in Hwf' by exact Hwf.
    simpl in Hwf', Hfit. destruct Hwf as [Hlen Hidx].
    destruct (decide (Pool.index p + 1 < Pool.size p)%nat) as [Hlt|Hge].
    + rewrite IH; simpl.
      * rewrite (Nat.mod_small (Pool.index p + 1)) by lia.
        f_equal. f_equal.
        -- rewrite Nat.add_1_r.
           rewrite (take_S_r _ _ (Some x))
             by (apply list_lookup_insert_eq; lia).
           rewrite take_insert_ge by lia.
           rewrite drop_insert_lt by lia.
           rewrite <- !app_assoc. simpl.
           rewrite Nat.add_succ_r. reflexivity.
        -- f_equal. lia.
      * exact Hwf'.
      * rewrite (Nat.mod_small (Pool.index p + 1)) by lia. lia.
    + assert (items = []) as -> by (destruct items; [reflexivity | simpl in Hfit; lia]).
      simpl. unfold Py.ret. f_equal. f_equal.
      * rewrite insert_take_drop by lia. simpl.
        do 3 f_equal. lia.
Qed.

Lemma pushes_app items1 items2 p :
  Pool.pushes (items1 ++ items2) p
  = Py.bind (Pool.pushes items1) (fun _ => Pool.pushes items2) p.
Proof.
  revert p. induction items1 as [|x items1 IH]; intros p; simpl.
  - reflexivity.
  - unfold Py.bind in *. destruct (Pool.append x p) as [[[]|e] p1].
    + rewrite IH. reflexivity.
    + reflexivity.
Qed.

(** Whole laps from cursor 0: the cursor is back at 0 and, after at least
    one lap, the buffer is the last [size] items. *)
Lemma pushes_laps k : forall items p,
  Pool.wf p ->
  Pool.index p = 0%nat ->
  length items = (k * Pool.size p)%nat ->
  exists p',
    Pool.pushes items p = (Py.Ok tt, p') /\
    Pool.wf p' /\ Pool.size p' = Pool.size p /\ Pool.index p' = 0%nat /\
    (k = 0%nat -> p' = p) /\
    ((0 < k)%nat ->
     Pool.buffer p' = Some <$> drop (length items - Pool.size p) items).
Proof.
  induction k as [|k IH]; intros items p Hwf Hidx Hlen.
  - destruct items; [|discriminate Hlen].
    exists p. split; [reflexivity|]. split; [exact Hwf|].
    repeat split; auto. lia.
  - pose proof Hwf as [Hbuf Hpos].
    assert (Hcut : Pool.pushes items p
                   = Pool.pushes (take (Pool.size p) items ++ drop (Pool.size p) items) p)
      by (rewrite take_drop; reflexivity).
    rewrite Hcut, pushes_app. unfold Py.bind.
    assert (Hfirst : length (take (Pool.size p) items) = Pool.size p)
      by (rewrite length_take; simpl in Hlen; lia).
    rewrite pushes_block by (auto; lia).
    rewrite Hidx, Hfirst. simpl.
    rewrite Nat.Div0.mod_same, (drop_ge (Pool.buffer p)), app_nil_r by lia.
    set (p1 := {| Pool.size := Pool.size p;
                  Pool.buffer := Some <$> take (Pool.size p) items;
                  Pool.index := 0 |}).
    assert (Hwf1 : Pool.wf p1).
    { split; simpl; [rewrite length_fmap; exact Hfirst | lia]. }
    destruct (IH (drop (Pool.size p) items) p1 Hwf1 eq_refl) as
      (p' & Hrun & Hwf' & Hsize & Hidx' & Hzero & Hpos').
    { rewrite length_drop. simpl in *. lia. }
    exists p'. rewrite Hrun. split; [reflexivity|]. split; [exact Hwf'|].
    split; [exact Hsize|]. split; [exact Hidx'|]. split; [discriminate|].
    intros _. destruct k as [|k].
    + rewrite (Hzero eq_refl). simpl.
      simpl in Hlen. rewrite Nat.add_0_r in Hlen.
      rewrite Hlen, Nat.sub_diag, take_ge by lia. reflexivity.
    + rewrite Hpos' by lia. simpl. rewrite drop_drop, length_drop.
      do 2 f_equal. simpl in Hlen. lia.
Qed.

(** Any number of pushes into a fresh buffer: the cursor is the count
    modulo [size], and the slots below the cursor hold the items pushed
    last, in the order they were pushed. *)
Lemma pushes_new size items :
  (0 < size)%nat ->
  exists p',
    Pool.pushes items (Pool.new size) = (Py.Ok tt, p') /\
    Pool.wf p' /\ Pool.size p' = size /\
    Pool.index p' = (length items mod size)%nat /\
    take (Pool.index p') (Pool.buffer p')
    = Some <$> drop (length items - length items mod size) items.
Proof.
  intros Hsize.
  set (r := (length items mod size)%nat).
  set (q := (length items / size)%nat).
  assert (Hdiv : length items = (q * size + r)%nat)
    by (subst q r; rewrite (Nat.div_mod_eq (length items) size) at 1; lia).
  assert (Hr : (r < size)%nat) by (apply Nat.mod_upper_bound; lia).
  assert (Hcut : Pool.pushes items (Pool.new size)
                 = Pool.pushes (take (length items - r) items
                                ++ drop (length items - r) items) (Pool.new size))
    by (rewrite take_drop; reflexivity).
  rewrite Hcut, pushes_app. unfold Py.bind.
  destruct (pushes_laps q (take (length items - r) items) (Pool.new size))
    as (p1 & Hrun & Hwf1 & Hsize1 & Hidx1 & _ & _).
  { apply new_wf, Hsize. }
  { reflexivity. }
  { rewrite length_take. simpl. lia. }
  rewrite Hrun. simpl in Hsize1.
  assert (Htail : length (drop (length items - r) items) = r)
    by (rewrite length_drop; lia).
  rewrite pushes_block by (rewrite ?Htail, ?Hidx1, ?Hsize1; auto; lia).
  eexists. split; [reflexivity|].
  rewrite Hidx1, Htail, Hsize1. simpl.
  rewrite Nat.mod_small by lia.
  destruct Hwf1 as [Hbuf1 _].
  repeat split; simpl.
  - rewrite length_app, length_fmap, Htail, length_drop. lia.
  - exact Hr.
  - rewrite take_app_length' by (rewrite length_fmap; symmetry; exact Htail).
    reflexivity.
Qed.

(** When the cursor has not wrapped inside the last [n] pushes, [get_new]
    returns exactly these [n] items. *)
Lemma get_new_recent size items n :
  (0 < size)%nat ->
  (n <= length items mod size)%nat ->
  fst (Pool.get_new n (Py.exec (Pool.pushes items) (Pool.new size)))
  = Py.Ok (Some (Some <$> drop (length items - n) items)).
Proof.
  intros Hsize Hn.
  destruct (pushes_new size items Hsize) as (p' & Hrun & _ & _ & Hidx & Htake).
  unfold Py.exec. rewrite Hrun. simpl.
  unfold Pool.get_new, Pool.slice. unfold_py.
  assert (E : (n <=? Pool.index p')%nat = true) by (apply Nat.leb_le; lia).
  rewrite E. simpl. do 2 f_equal.
  pose proof (Nat.Div0.mod_le (length items) size) as Hle.
  replace (Pool.index p' - (Pool.index p' - n))%nat with n by lia.
  rewrite take_drop_commute.
  replace (Pool.index p' - n + n)%nat with (Pool.index p') by lia.
  rewrite Htake, Hidx, <- fmap_drop, drop_drop.
  do 2 f_equal. lia.
Qed.

End PoolFacts.

(** C9: [get_new(n)] returns [None] exactly when the cursor is below [n].
    After a number of pushes that is a multiple of the capacity the cursor
    is 0, so [get_new(n)] returns [None] for every [n > 0], although, once
    at least one lap is done, the buffer holds the last [size] samples. *)
Theorem get_new_none_iff_cursor_below :
  forall (A : Type) (p : Pool.data_pool A) (m size k n : nat) (items : list A),
    (fst (Pool.get_new m p) = Py.Ok None <-> (Pool.index p < m)%nat) /\
    ((0 < size)%nat -> length items = (k * size)%nat -> (0 < n)%nat ->
     Pool.index (Py.exec (Pool.pushes items) (Pool.new size)) = 0%nat /\
     fst (Pool.get_new n (Py.exec (Pool.pushes items) (Pool.new size))) = Py.Ok None /\
     ((0 < k)%nat ->
      Pool.buffer (Py.exec (Pool.pushes items) (Pool.new size))
      = Some <$> drop (length items - size) items)).
Proof.
  intros A p m size k n items. split.
  - unfold Pool.get_new. unfold_py.
    destruct (m <=? Pool.index p)%nat eqn:E; simpl.
    + apply Nat.leb_le in E. split; [discriminate | lia].
    + apply Nat.leb_gt in E. split; [lia | reflexivity].
  - intros Hsize Hlen Hn.
    destruct (pushes_laps k items (Pool.new size)) as
      (p' & Hrun & _ & _ & Hidx & _ & Hbuf); auto using new_wf.
    unfold Py.exec. rewrite Hrun. simpl.
    split; [exact Hidx|]. split; [|exact Hbuf].
    unfold Pool.get_new. unfold_py. rewrite Hidx.
    destruct n; [lia | reflexivity].
Qed.

Lemma get_new_none_iff_cursor_below_witness :
  ((fst (Pool.get_new 4 (Pool.new (A := nat) 10)) = Py.Ok None
    <-> (Pool.index (Pool.new (A := nat) 10) < 4)%nat) /\
   (0 < 10)%nat /\ length [1; 2; 3; 4; 5; 6; 7; 8; 9; 10]%nat = (1 * 10)%nat) /\
  Pool.index (Py.exec (Pool.pushes [1; 2; 3; 4; 5; 6; 7; 8; 9; 10]%nat) (Pool.new 10))
  = 0%nat /\
  fst (Pool.get_new 4
         (Py.exec (Pool.pushes [1; 2; 3; 4; 5; 6; 7; 8; 9; 10]%nat) (Pool.new 10)))
  = Py.Ok None /\
  Pool.buffer (Py.exec (Pool.pushes [1; 2; 3; 4; 5; 6; 7; 8; 9; 10]%nat) (Pool.new 10))
  = Some <$> [1; 2; 3; 4; 5; 6; 7; 8; 9; 10]%nat.
Proof.
  destruct (get_new_none_iff_cursor_below nat (Pool.new 10) 4 10 1 4
              [1; 2; 3; 4; 5; 6; 7; 8; 9; 10]%nat) as [Hiff Hlap].
  split; [split; [exact Hiff | split; [lia | reflexivity]]|].
  destruct Hlap as (Hidx & Hnone & Hbuf); [lia | reflexivity | lia |].
  split; [exact Hidx|]. split; [exact Hnone|]. apply Hbuf. lia.
Defined.

(** C3, at the input where the code departs from it: ten samples pushed
    into the buffer of ten slots bring the cursor back to 0, and
    [get_new(4)] returns [None] instead of the last four samples. *)
Theorem full_lap_hides_the_batch :
  forall (A : Type) (s1 s2 s3 s4 s5 s6 s7 s8 s9 s10 : A),
    Pool.get_new 4
      (Py.exec (Pool.pushes [s1; s2; s3; s4; s5; s6; s7; s8; s9; s10]) Pool.pool_data)
    = (Py.Ok None,
       {| Pool.size := 10;
          Pool.buffer := Some <$> [s1; s2; s3; s4; s5; s6; s7; s8; s9; s10];
          Pool.index := 0 |}).
Proof. reflexivity. Qed.

(** The part of C3 that holds: four samples pushed into the fresh buffer
    are returned, in order. *)
Example four_pushes_are_ready (A : Type) (s1 s2 s3 s4 : A) :
  fst (Pool.get_new 4 (Py.exec (Pool.pushes [s1; s2; s3; s4]) Pool.pool_data))
  = Py.Ok (Some [Some s1; Some s2; Some s3; Some s4]).
Proof. reflexivity. Qed.

(** One push later than a full lap the newest four samples straddle the
    end of the list, and [get_new(4)] returns [None] as well. *)
Example eleven_pushes_not_ready :
  fst (Pool.get_new 4
         (Py.exec (Pool.pushes [1; 2; 3; 4; 5; 6; 7; 8; 9; 10; 11]%nat) Pool.pool_data))
  = Py.Ok None.
Proof. reflexivity. Qed.

(** C6, as the code has it: [get_new] only reads, so two calls in a row
    return the same value, snapshot or [None], and leave the buffer as it
    was. *)
Theorem get_new_twice_same :
  forall (A : Type) (p : Pool.data_pool A) (n : nat),
    exists r,
      Pool.get_new n p = (Py.Ok r, p) /\
      Pool.get_new_twice n p = (Py.Ok (r, r), p).
Proof.
  intros A p n. unfold Pool.get_new_twice, Pool.get_new. unfold_py.
  destruct (n <=? Pool.index p)%nat eqn:E; simpl; rewrite E;
    eexists; split; reflexivity.
Qed.

(** C6, as stated, fails: after four pushes the first call returns a
    snapshot and the second call returns it again, not [None]. *)
Lemma second_get_new_not_none :
  ~ (forall r1 r2,
       fst (Pool.get_new_twice 4
              (Py.exec (Pool.pushes [1; 2; 3; 4]%nat) Pool.pool_data))
       = Py.Ok (Some r1, r2) ->
       r2 = None).
Proof.
  intros H.
  specialize (H [Some 1; Some 2; Some 3; Some 4]%nat
                (Some [Some 1; Some 2; Some 3; Some 4]%nat) eq_refl).
  discriminate H.
Qed.

(** ** The upload scheduler *)

Section Backoff.

Local Open Scope Q_scope.

Variable cfg : Main.config.

Let lo := Main.min_upload_interval cfg.
Let hi := Main.max_upload_interval cfg.
Let thr := Main.max_consecutive_failures cfg.

Lemma pow2_succ k : Main.pow2 (S k) == Main.pow2 k * 2.
Proof.
  unfold Main.pow2. rewrite Nat2Z.inj_succ, Z.pow_succ_r by lia.
  rewrite inject_Z_mult. ring.
Qed.

Lemma Qmin_double (a b m : Q) :
  0 <= m -> a == Qmin b m -> Qmin (a * 2) m == Qmin (b * 2) m.
Proof.
  intros Hm Ha.
  destruct (Q.min_spec b m) as [[H E]|[H E]];
    destruct (Q.min_spec (a * 2) m) as [[H1 E1]|[H1 E1]];
    destruct (Q.min_spec (b * 2) m) as [[H2 E2]|[H2 E2]];
    rewrite E1, E2; rewrite E in Ha; lra.
Qed.

Lemma tick_bound e l :
  lo <= hi ->
  Main.current_upload_interval l <= hi ->
  Main.current_upload_interval (Main.tick cfg e l) <= hi.
Proof.
  intros Hlo Hl. unfold Main.tick, Main.on_success, Main.on_failure.
  destruct (Main.due _ l), (Main.connected e), (Main.upload_ok e); simpl; auto.
  destruct (_ <=? _)%nat; simpl; auto. apply Q.le_min_r.
Qed.

Lemma run_bound events : forall l,
  lo <= hi ->
  Main.current_upload_interval l <= hi ->
  Main.current_upload_interval (Main.run cfg events l) <= hi.
Proof.
  induction events as [|e events IH]; intros l Hlo Hl; simpl.
  - exact Hl.
  - apply IH; [exact Hlo | apply tick_bound; assumption].
Qed.

(** A pass that does not call [upload_data()] leaves the variables. *)
Lemma tick_idle e l : Main.attempts e l = false -> Main.tick cfg e l = l.
Proof.
  unfold Main.attempts, Main.tick.
  destruct (Main.due _ l), (Main.connected e); simpl; congruence.
Qed.

Lemma tick_failed e l :
  Main.attempts e l = true -> Main.upload_ok e = false ->
  Main.tick cfg e l = Main.on_failure cfg l.
Proof.
  unfold Main.attempts, Main.tick. intros Ha ->.
  destruct (Main.due _ l), (Main.connected e); simpl in *; congruence.
Qed.

(** Failed attempts only: the interval after [c] of them, counted from a
    state that is [k] doublings up with [f] failures on the counter. *)
Lemma run_failures events : forall l k,
  0 <= hi -> (1 <= thr)%nat ->
  Forall (fun e => Main.upload_ok e = false) events ->
  Main.current_upload_interval l == Qmin (lo * Main.pow2 k) hi ->
  (Main.consecutive_failures l < thr)%nat ->
  Main.current_upload_interval (Main.run cfg events l)
    == Qmin (lo * Main.pow2 (k + (Main.consecutive_failures l
                             + Main.attempt_count cfg events l) / thr)) hi /\
  Main.consecutive_failures (Main.run cfg events l)
    = ((Main.consecutive_failures l + Main.attempt_count cfg events l) mod thr)%nat.
Proof.
  induction events as [|e events IH]; intros l k Hhi Hthr Hfail Hint Hcnt; simpl.
  - rewrite !Nat.add_0_r, Nat.div_small, Nat.mod_small, Nat.add_0_r by lia.
    split; [exact Hint | reflexivity].
  - inversion Hfail as [|? ? Hok Hrest]; subst.
    destruct (Main.attempts e l) eqn:Ha.
    + rewrite tick_failed by assumption.
      unfold Main.on_failure. fold thr hi.
      destruct (thr <=? S (Main.consecutive_failures l))%nat eqn:E.
      * apply Nat.leb_le in E.
        assert (Hf : S (Main.consecutive_failures l) = thr) by lia.
        match goal with |- context [Main.run cfg events ?l1] => set (l' := l1) end.
        destruct (IH l' (S k) Hhi Hthr Hrest) as [Hi Hc].
        { subst l'; simpl. rewrite pow2_succ.
          rewrite (Qmin_double _ (lo * Main.pow2 k) hi Hhi Hint).
          apply Q.min_compat; [ring | reflexivity]. }
        { subst l'; simpl; lia. }
        replace (Main.consecutive_failures l
                 + (1 + Main.attempt_count cfg events l'))%nat
          with (1 * thr + (Main.consecutive_failures l'
                           + Main.attempt_count cfg events l'))%nat
          by (subst l'; simpl; lia).
        rewrite Nat.div_add_l by lia.
        rewrite (Nat.add_comm (1 * thr)), Nat.Div0.mod_add.
        rewrite Hi, Hc.
        replace (S k + _)%nat with
          (k + (1 + (Main.consecutive_failures l'
                     + Main.attempt_count cfg events l') / thr))%nat by lia.
        split; reflexivity.
      * apply Nat.leb_gt in E.
        match goal with |- context [Main.run cfg events ?l1] => set (l' := l1) end.
        destruct (IH l' k Hhi Hthr Hrest) as [Hi Hc].
        { subst l'; simpl. exact Hint. }
        { subst l'; simpl; lia. }
        replace (Main.consecutive_failures l
                 + (1 + Main.attempt_count cfg events l'))%nat
          with (Main.consecutive_failures l'
                + Main.attempt_count cfg events l')%nat
          by (subst l'; simpl; lia).
        split; assumption.
    + rewrite tick_idle by assumption. simpl.
      apply IH; assumption.
Qed.

End Backoff.

(** C4: from a state whose interval is the initial one and whose failure
    counter is 0 (the start of [main], or the state after a success), a run
    of passes in which every upload fails leaves the interval at
    [min(initial * 2^k, max)], where [k] is the number of completed runs of
    threshold-many failed attempts, and the counter at the number of
    attempts into the next run; and whatever the passes are, the interval
    does not exceed the maximum. *)
Theorem backoff_interval :
  forall (cfg : Main.config) (events : list Main.event) (l0 : Main.locals),
    (0 <= Main.max_upload_interval cfg)%Q ->
    (Main.min_upload_interval cfg <= Main.max_upload_interval cfg)%Q ->
    (1 <= Main.max_consecutive_failures cfg)%nat ->
    (Main.current_upload_interval l0 == Main.min_upload_interval cfg)%Q ->
    Main.consecutive_failures l0 = 0%nat ->
    (Forall (fun e => Main.upload_ok e = false) events ->
     (Main.current_upload_interval (Main.run cfg events l0)
      == Qmin (Main.min_upload_interval cfg
               * Main.pow2 (Main.attempt_count cfg events l0
                            / Main.max_consecutive_failures cfg))
              (Main.max_upload_interval cfg))%Q /\
     Main.consecutive_failures (Main.run cfg events l0)
     = (Main.attempt_count cfg events l0 mod Main.max_consecutive_failures cfg)%nat) /\
    (Main.current_upload_interval (Main.run cfg events l0)
     <= Main.max_upload_interval cfg)%Q.
Proof.
  intros cfg events l0 Hhi Hlo Hthr Hint Hcnt. split.
  - intros Hfail.
    destruct (run_failures cfg events l0 0 Hhi Hthr Hfail) as [Hi Hc].
    + rewrite Hint. change (Main.pow2 0) with 1%Q.
      rewrite Q.min_l; [ring | lra].
    + lia.
    + rewrite Hcnt in Hi, Hc. simpl in Hi, Hc. split; assumption.
  - apply run_bound; [exact Hlo | rewrite Hint; exact Hlo].
Qed.

Lemma backoff_interval_witness :
  Forall (fun e => Main.upload_ok e = false)
    [Main.Build_event 1 true false; Main.Build_event 2 true false;
     Main.Build_event 3 true false] /\
  Main.attempt_count Main.config_v3
    [Main.Build_event 1 true false; Main.Build_event 2 true false;
     Main.Build_event 3 true false] (Main.start Main.config_v3) = 3%nat /\
  ((Main.current_upload_interval
      (Main.run Main.config_v3
         [Main.Build_event 1 true false; Main.Build_event 2 true false;
          Main.Build_event 3 true false] (Main.start Main.config_v3))
    == Qmin ((1 # 2) * Main.pow2 (3 / 3)) 5)%Q /\
   Main.consecutive_failures
     (Main.run Main.config_v3
        [Main.Build_event 1 true false; Main.Build_event 2 true false;
         Main.Build_event 3 true false] (Main.start Main.config_v3))
   = (3 mod 3)%nat) /\
  (Main.current_upload_interval
     (Main.run Main.config_v3
        [Main.Build_event 1 true false; Main.Build_event 2 true false;
         Main.Build_event 3 true false] (Main.start Main.config_v3))
   <= 5)%Q.
Proof.
  assert (Hfail : Forall (fun e => Main.upload_ok e = false)
            [Main.Build_event 1 true false; Main.Build_event 2 true false;
             Main.Build_event 3 true false])
    by (repeat constructor).
  split; [exact Hfail|]. split; [reflexivity|].
  destruct (backoff_interval Main.config_v3
              [Main.Build_event 1 true false; Main.Build_event 2 true false;
               Main.Build_event 3 true false] (Main.start Main.config_v3))
    as [Hrun Hmax].
  - simpl. lra.
  - simpl. lra.
  - simpl. lia.
  - reflexivity.
  - reflexivity.
  - split; [exact (Hrun Hfail) | exact Hmax].
Defined.

(** Three failed attempts at the threshold of three double the interval
    once, from 0.5 to 1. *)
Example three_failures_double_once :
  Main.run Main.config_v3
    [Main.Build_event 1 true false; Main.Build_event 2 true false;
     Main.Build_event 3 true false] (Main.start Main.config_v3)
  = {| Main.last_upload_time := 0;
       Main.current_upload_interval := Qmin ((1 # 2) * 2) 5;
       Main.consecutive_failures := 0 |}.
Proof. reflexivity. Qed.

(** [upload_step] follows [tick] on the value [upload_data()] returns. *)
Lemma upload_step_tick {W} cfg now conn (upload_data : Py.M W bool) ok l w w' :
  upload_data w = (Py.Ok ok, w') ->
  fst (Main.upload_step cfg now conn upload_data l w)
  = Py.Ok (Main.tick cfg (Main.Build_event now conn ok) l).
Proof.
  intros Hup. unfold Main.upload_step, Main.tick. simpl. unfold_py.
  destruct (Main.due now l), conn; simpl; try reflexivity.
  rewrite Hup. reflexivity.
Qed.

Lemma read_gps_data_returns float period now u g :
  fst (GPS.read_gps_data float period now u g) = Py.Ok tt.
Proof.
  unfold GPS.read_gps_data. unfold_py.
  destruct (Qle_bool _ _); [|reflexivity].
  destruct u; try reflexivity. apply poll_sentences_returns.
Qed.

Lemma upload_data_returns c http w :
  exists ok w', V3.upload_data c http w = (Py.Ok ok, w').
Proof.
  unfold V3.upload_data, V3.generate_payload, Upload._get_current_time_str,
    Py.zoom. unfold_py.
  repeat (step_match; simpl in *; try discriminate); eauto.
Qed.

(** The variables of the loop of GPS_WIFI_Blue_3.py after one pass are
    those of [tick], on the value [upload_data()] returns in that pass. *)
Lemma main_iteration_tick float cfg e l w :
  exists ok,
    fst (V3.main_iteration float cfg e l w)
    = Py.Ok (Main.tick cfg
               {| Main.current_time := Upload.now (V3.clock e);
                  Main.connected := V3.wifi_connected e;
                  Main.upload_ok := ok |} l).
Proof.
  unfold V3.main_iteration, Py.try_except, Py.bind, Py.zoom.
  pose proof (read_gps_data_returns float 1 (Upload.now (V3.clock e))
                (V3.uart e) (V3.gps w)) as Hgps.
  destruct (GPS.read_gps_data float 1 _ (V3.uart e) (V3.gps w)) as [r g'].
  simpl in Hgps. subst r.
  destruct (upload_data_returns (V3.clock e) (V3.http_post e) (V3.set_gps g' w))
    as (ok & w' & Hup).
  exists ok.
  pose proof (upload_step_tick cfg (Upload.now (V3.clock e)) (V3.wifi_connected e)
                _ ok l _ _ Hup) as Hstep.
  destruct (Main.upload_step cfg _ _ _ l (V3.set_gps g' w)) as [r w''].
  simpl in Hstep. subst r. reflexivity.
Qed.

(** The same three failures with the constants of GPS_WIFI_Blue_4_.py. *)
Example three_failures_double_once_v4 :
  Main.run Main.config_v4
    [Main.Build_event 1 true false; Main.Build_event 2 true false;
     Main.Build_event 3 true false] (Main.start Main.config_v4)
  = {| Main.last_upload_time := 0;
       Main.current_upload_interval := Qmin ((1 # 2) * 2) 3;
       Main.consecutive_failures := 0 |}.
Proof. reflexivity. Qed.

(** With [last_upload_time] left at 0, every pass is due once the clock
    has passed the maximum: twelve failures in a row, one second apart,
    bring the interval to its cap of 5 seconds. *)
Example twelve_failures_reach_the_cap :
  (Main.current_upload_interval
     (Main.run Main.config_v3
        (map (fun t => Main.Build_event (inject_Z t) true false)
             [10; 11; 12; 13; 14; 15; 16; 17; 18; 19; 20; 21]%Z)
        (Main.start Main.config_v3)) == 5)%Q.
Proof. reflexivity. Qed.

(** The failure branch assigns the counter and the interval only. *)
Lemma on_failure_keeps_time cfg l :
  Main.last_upload_time (Main.on_failure cfg l) = Main.last_upload_time l.
Proof. unfold Main.on_failure. destruct (_ <=? _)%nat; reflexivity. Qed.

(** [upload_data] of GPS_WIFI_Blue_3.py clears the flags on success only. *)
Lemma upload_data_false_keeps_flags c http w w' :
  V3.upload_data c http w = (Py.Ok false, w') ->
  GPS.gps_data_valid (V3.gps w') = GPS.gps_data_valid (V3.gps w) /\
  V3.ble_data_received w' = V3.ble_data_received w /\
  V3.user_data w' = V3.user_data w.
Proof.
  unfold V3.upload_data, V3.generate_payload, Upload._get_current_time_str,
    Py.zoom. unfold_py.
  repeat (step_match; simpl in *; try discriminate);
    intros [= <-]; simpl; auto.
Qed.

(** C5, as the code has it: a pass of the loop of GPS_WIFI_Blue_3.py in
    which the upload is due, WiFi is up and [upload_data()] returns [False]
    adds one to [consecutive_failures] (back to 0 when the threshold is
    reached), leaves [last_upload_time] as it was, and leaves both flags
    and the batch as they were. *)
Theorem failed_attempt_keeps_time_and_flags :
  forall (cfg : Main.config) (c : Upload.clock)
         (http : Upload.payload (list string) -> bool)
         (l : Main.locals) (w w' : V3.world),
    Main.due (Upload.now c) l = true ->
    V3.upload_data c http w = (Py.Ok false, w') ->
    Main.upload_step cfg (Upload.now c) true (V3.upload_data c http) l w
    = (Py.Ok (Main.on_failure cfg l), w') /\
    Main.consecutive_failures (Main.on_failure cfg l)
    = (if (Main.max_consecutive_failures cfg <=? S (Main.consecutive_failures l))%nat
       then 0 else S (Main.consecutive_failures l))%nat /\
    Main.last_upload_time (Main.on_failure cfg l) = Main.last_upload_time l /\
    GPS.gps_data_valid (V3.gps w') = GPS.gps_data_valid (V3.gps w) /\
    V3.ble_data_received w' = V3.ble_data_received w /\
    V3.user_data w' = V3.user_data w.
Proof.
  intros cfg c http l w w' Hdue Hup.
  split.
  - unfold Main.upload_step. rewrite Hdue. unfold_py. rewrite Hup. reflexivity.
  - split.
    + unfold Main.on_failure. destruct (_ <=? _)%nat; reflexivity.
    + split; [apply on_failure_keeps_time|].
      eapply upload_data_false_keeps_flags; eassumption.
Qed.

Lemma failed_attempt_keeps_time_and_flags_witness :
  Main.due 10 (Main.start Main.config_v3) = true /\
  Main.upload_step Main.config_v3 10 true
    (V3.upload_data {| Upload.now := 10; Upload.now_str := "2025-06-01 12:00:00" |}
       (fun _ => false))
    (Main.start Main.config_v3) V3.ready_world
  = (Py.Ok (Main.on_failure Main.config_v3 (Main.start Main.config_v3)),
     V3.set_cache {| Upload._last_time_str := "2025-06-01 12:00:00";
                     Upload._last_time_sec := 10 |} V3.ready_world) /\
  Main.consecutive_failures (Main.on_failure Main.config_v3 (Main.start Main.config_v3))
  = 1%nat /\
  Main.last_upload_time (Main.on_failure Main.config_v3 (Main.start Main.config_v3))
  = 0%Q /\
  GPS.gps_data_valid
    (V3.gps (V3.set_cache {| Upload._last_time_str := "2025-06-01 12:00:00";
                             Upload._last_time_sec := 10 |} V3.ready_world))
  = true /\
  V3.ble_data_received
    (V3.set_cache {| Upload._last_time_str := "2025-06-01 12:00:00";
                     Upload._last_time_sec := 10 |} V3.ready_world)
  = true /\
  V3.user_data
    (V3.set_cache {| Upload._last_time_str := "2025-06-01 12:00:00";
                     Upload._last_time_sec := 10 |} V3.ready_world)
  = ["a"; "b"].
Proof.
  split; [reflexivity|].
  apply (failed_attempt_keeps_time_and_flags Main.config_v3
           {| Upload.now := 10; Upload.now_str := "2025-06-01 12:00:00" |}
           (fun _ => false) (Main.start Main.config_v3) V3.ready_world);
    reflexivity.
Defined.

(** C5, as stated, fails: at time 10, with both flags set, WiFi up and the
    transport failing, the pass counts the failure and keeps the flags, but
    [last_upload_time] is still 0, not the time of the attempt. *)
Lemma failed_attempt_time_not_recorded :
  ~ (forall l' w',
       V3.main_iteration Py.float Main.config_v3
         {| V3.uart := GPS.NoData;
            V3.clock := {| Upload.now := 10; Upload.now_str := "2025-06-01 12:00:00" |};
            V3.wifi_connected := true;
            V3.http_post := fun _ => false |}
         (Main.start Main.config_v3) V3.ready_world
       = (Py.Ok l', w') ->
       Main.consecutive_failures l' = 1%nat /\
       (Main.last_upload_time l' == 10)%Q /\
       GPS.gps_data_valid (V3.gps w') = true /\
       V3.ble_data_received w' = true).
Proof.
  intros H.
  destruct (H _ _ eq_refl) as (_ & Ht & _).
  vm_compute in Ht. discriminate Ht.
Qed.

(** ** The payload *)

(** In GPS_WIFI_Blue_3.py [generate_payload] returns [None] exactly when
    one of the two flags is not set. *)
Lemma generate_payload_none_iff c w :
  fst (V3.generate_payload c w) = Py.Ok None <->
  GPS.gps_data_valid (V3.gps w) = false \/ V3.ble_data_received w = false.
Proof.
  unfold V3.generate_payload, Upload._get_current_time_str, Py.zoom. unfold_py.
  destruct (GPS.gps_data_valid (V3.gps w)), (V3.ble_data_received w); simpl;
    try (split; [auto | reflexivity]).
  destruct (negb _); simpl; split; try discriminate; intros [|]; discriminate.
Qed.

#[local] Arguments Nat.leb : simpl never.

(** In GPS_WIFI_Blue_4_.py the only test is on the ring buffer. *)
Lemma generate_payload_v4_none_iff {A} c (w : V4.world A) :
  fst (V4.generate_payload c w) = Py.Ok None <->
  (Pool.index (V4.pool_data w) < 4)%nat.
Proof.
  unfold V4.generate_payload, Upload._get_current_time_str, Pool.get_new, Py.zoom.
  unfold_py. simpl.
  destruct (4 <=? Pool.index (V4.pool_data w))%nat eqn:E; simpl.
  - destruct (negb _); simpl; rewrite E; simpl;
      apply Nat.leb_le in E; (split; [discriminate | lia]).
  - apply Nat.leb_gt in E. split; [intros _; exact E | reflexivity].
Qed.

Lemma generate_payload_returns c w :
  exists r, fst (V3.generate_payload c w) = Py.Ok r.
Proof.
  unfold V3.generate_payload, Upload._get_current_time_str, Py.zoom. unfold_py.
  repeat (step_match; simpl in *); eauto.
Qed.

Lemma generate_payload_v4_returns {A} c (w : V4.world A) :
  exists r, fst (V4.generate_payload c w) = Py.Ok r.
Proof.
  unfold V4.generate_payload, Upload._get_current_time_str, Pool.get_new, Py.zoom.
  unfold_py.
  repeat (step_match; simpl in *); eauto.
Qed.

(** C7, as the code has it: [generate_payload] raises nothing and returns
    [None] or a record.  In GPS_WIFI_Blue_3.py it returns [None] exactly
    when the position flag or the batch flag is not set.  In
    GPS_WIFI_Blue_4_.py it returns [None] exactly when [get_new()] has no
    batch (the cursor is below 4); the position flag is not read. *)
Theorem generate_payload_none_cases :
  (forall (c : Upload.clock) (w : V3.world),
     (exists r, fst (V3.generate_payload c w) = Py.Ok r) /\
     (fst (V3.generate_payload c w) = Py.Ok None <->
      GPS.gps_data_valid (V3.gps w) = false \/ V3.ble_data_received w = false)) /\
  (forall (A : Type) (c : Upload.clock) (w : V4.world A),
     (exists r, fst (V4.generate_payload c w) = Py.Ok r) /\
     (fst (V4.generate_payload c w) = Py.Ok None <->
      fst (Pool.get_new 4 (V4.pool_data w)) = Py.Ok None) /\
     (fst (V4.generate_payload c w) = Py.Ok None <->
      (Pool.index (V4.pool_data w) < 4)%nat)).
Proof.
  split.
  - intros c w. split;
      [apply generate_payload_returns | apply generate_payload_none_iff].
  - intros A c w. split; [apply generate_payload_v4_returns|].
    split; [|apply generate_payload_v4_none_iff].
    rewrite generate_payload_v4_none_iff.
    unfold Pool.get_new. unfold_py.
    destruct (4 <=? Pool.index (V4.pool_data w))%nat eqn:E; simpl.
    + apply Nat.leb_le in E. split; [lia | discriminate].
    + apply Nat.leb_gt in E. split; [reflexivity | intros _; exact E].
Qed.

(** C7, as stated, fails: in GPS_WIFI_Blue_4_.py, with the position flag
    not set (no sentence parsed yet) and four samples in the buffer,
    [generate_payload] does not return [None]. *)
Lemma payload_without_position_fix :
  ~ (GPS.gps_data_valid GPS.init = false ->
     fst (V4.generate_payload
            {| Upload.now := 10; Upload.now_str := "2025-06-01 12:00:00" |}
            {| V4.gps := GPS.init;
               V4.pool_data := Py.exec (Pool.pushes [1; 2; 3; 4]%nat) Pool.pool_data;
               V4.cache := Upload.no_cache |})
     = Py.Ok None).
Proof.
  intros H. specialize (H eq_refl). vm_compute in H. discriminate H.
Qed.

(** The record that is returned there: the initial position 0.0 and the
    four samples. *)
Example payload_without_position_fix_record :
  fst (V4.generate_payload
         {| Upload.now := 10; Upload.now_str := "2025-06-01 12:00:00" |}
         {| V4.gps := GPS.init;
            V4.pool_data := Py.exec (Pool.pushes [1; 2; 3; 4]%nat) Pool.pool_data;
            V4.cache := Upload.no_cache |})
  = Py.Ok (Some {| Upload.device_id := "3";
                   Upload.position_x := "0.000000";
                   Upload.position_y := "0.000000";
                   Upload.time_stamp := "2025-06-01 12:00:00";
                   Upload.user_data := Some [Some 1; Some 2; Some 3; Some 4]%nat |}).
Proof. reflexivity. Qed.

(** *** Six digits after the point *)

Lemma all_digits_app a b :
  Py.all_digits (a ++ b) = Py.all_digits a && Py.all_digits b.
Proof.
  induction a as [|c a IH]; simpl; [reflexivity|].
  rewrite IH. apply andb_assoc.
Qed.

Lemma string_length_app a b :
  String.length (a ++ b) = (String.length a + String.length b)%nat.
Proof. induction a as [|c a IH]; simpl; [reflexivity | rewrite IH; reflexivity]. Qed.

Lemma digit_char_is_digit d : Py.is_digit (Py.digit_char d) = true.
Proof.
  unfold Py.digit_char.
  assert (H : (d mod 10 < 10)%N) by (apply N.mod_upper_bound; discriminate).
  destruct (d mod 10)%N as [|q]; [reflexivity|].
  do 4 (destruct q as [q|q|]; try reflexivity; try (exfalso; lia)).
Qed.

Lemma fixed_digits_spec k : forall n,
  Py.all_digits (Py.fixed_digits k n) = true /\
  String.length (Py.fixed_digits k n) = k.
Proof.
  induction k as [|k IH]; intros n; simpl; [auto|].
  destruct (IH (n / 10)%N) as [Hd Hl].
  rewrite all_digits_app, Hd. simpl. rewrite digit_char_is_digit.
  split; [reflexivity|].
  rewrite string_length_app, Hl. simpl. lia.
Qed.

Lemma string_of_uint_digits d : Py.all_digits (NilEmpty.string_of_uint d) = true.
Proof. induction d; simpl; auto. Qed.

Lemma str_N_spec n :
  Py.all_digits (Py.str_N n) = true /\ Py.str_N n <> "".
Proof.
  split; [apply string_of_uint_digits|].
  unfold Py.str_N.
  assert (Hnil : N.to_uint n <> Decimal.Nil).
  { destruct n; simpl; [discriminate | apply DecimalPos.Unsigned.to_uint_nonnil]. }
  destruct (N.to_uint n); simpl; congruence.
Qed.

Lemma cut_point_digits a b :
  Py.all_digits a = true -> Py.cut_point (a ++ String "." b) = Some (a, b).
Proof.
  induction a as [|c a IH]; simpl; intros Ha; [reflexivity|].
  apply andb_prop in Ha as [Hc Ha].
  destruct (Ascii.eqb_spec c "."); [subst c; discriminate Hc|].
  rewrite (IH Ha). reflexivity.
Qed.

(** Digits, the point, [k] digits: with or without a minus sign in front. *)
Lemma fixed_decimal_digits k (sg : bool) i f :
  Py.all_digits i = true -> i <> "" ->
  Py.all_digits f = true -> String.length f = k ->
  Py.fixed_decimal k ((if sg then "-" else "") ++ i ++ String "." f) = true.
Proof.
  intros Hi Hne Hf Hl.
  assert (Hcut : match Py.cut_point (i ++ String "." f) with
                 | Some (a, b) =>
                     negb (a =? "") && Py.all_digits a && Py.all_digits b
                     && (String.length b =? k)%nat
                 | None => false
                 end = true).
  { rewrite cut_point_digits by exact Hi.
    rewrite Hi, Hf, Hl, Nat.eqb_refl. destruct i; [congruence | reflexivity]. }
  unfold Py.fixed_decimal. destruct sg; simpl; [exact Hcut|].
  destruct i as [|c i']; [congruence|].
  simpl in Hi. apply andb_prop in Hi as [Hc _].
  destruct (Ascii.eqb_spec c "-") as [->|Hc']; [discriminate Hc|].
  replace (match (String c i' ++ String "." f) with
           | String "-" s' => s'
           | _ => String c i' ++ String "." f
           end) with (String c i' ++ String "." f); [exact Hcut|].
  simpl. destruct c as [[] [] [] [] [] [] [] []]; try reflexivity.
  congruence.
Qed.

(** A finite float printed with ["%.6f"] has six digits after the point. *)
Lemma format_6f_fixed s m e :
  Py.fixed_decimal 6 (Py.format_6f (Py.Fin s m e)) = true.
Proof.
  unfold Py.format_6f.
  destruct (str_N_spec (Py.micro m e / 10 ^ 6)) as [Hi Hne].
  destruct (fixed_digits_spec 6 (Py.micro m e)) as [Hf Hl].
  apply (fixed_decimal_digits 6 s); assumption.
Qed.

Lemma generate_payload_positions c w p :
  fst (V3.generate_payload c w) = Py.Ok (Some p) ->
  Upload.position_x p = Py.format_6f (GPS.nmea_x (V3.gps w)) /\
  Upload.position_y p = Py.format_6f (GPS.nmea_y (V3.gps w)).
Proof.
  unfold V3.generate_payload, Upload._get_current_time_str, Py.zoom. unfold_py.
  repeat (step_match; simpl in *; try discriminate);
    intros [= <-]; simpl; auto.
Qed.

Lemma generate_payload_v4_positions {A} c (w : V4.world A) p :
  fst (V4.generate_payload c w) = Py.Ok (Some p) ->
  Upload.position_x p = Py.format_6f (GPS.nmea_x (V4.gps w)) /\
  Upload.position_y p = Py.format_6f (GPS.nmea_y (V4.gps w)).
Proof.
  unfold V4.generate_payload, Upload._get_current_time_str, Pool.get_new, Py.zoom.
  unfold_py.
  repeat (step_match; simpl in *; try discriminate);
    intros [= <-]; simpl; auto.
Qed.

Lemma finite_is_Fin x : Py.is_finite x = true -> exists s m e, x = Py.Fin s m e.
Proof. destruct x; simpl; try discriminate; eauto. Qed.

(** C8, as the code has it: in a payload built by [generate_payload] of
    GPS_WIFI_Blue_3.py or GPS_WIFI_Blue_4_.py, which print with ["%.6f"],
    [position_x] and [position_y] are decimal texts with exactly six digits
    after the point whenever the two coordinates are finite. *)
Theorem payload_positions_six_digits :
  (forall (c : Upload.clock) (w : V3.world) (p : Upload.payload (list string)),
     fst (V3.generate_payload c w) = Py.Ok (Some p) ->
     Py.is_finite (GPS.nmea_x (V3.gps w)) = true ->
     Py.is_finite (GPS.nmea_y (V3.gps w)) = true ->
     Py.fixed_decimal 6 (Upload.position_x p) = true /\
     Py.fixed_decimal 6 (Upload.position_y p) = true) /\
  (forall (A : Type) (c : Upload.clock) (w : V4.world A)
          (p : Upload.payload (option (list (option A)))),
     fst (V4.generate_payload c w) = Py.Ok (Some p) ->
     Py.is_finite (GPS.nmea_x (V4.gps w)) = true ->
     Py.is_finite (GPS.nmea_y (V4.gps w)) = true ->
     Py.fixed_decimal 6 (Upload.position_x p) = true /\
     Py.fixed_decimal 6 (Upload.position_y p) = true).
Proof.
  split.
  - intros c w p Hp Hx Hy.
    destruct (generate_payload_positions c w p Hp) as [-> ->].
    destruct (finite_is_Fin _ Hx) as (? & ? & ? & ->).
    destruct (finite_is_Fin _ Hy) as (? & ? & ? & ->).
    split; apply format_6f_fixed.
  - intros A c w p Hp Hx Hy.
    destruct (generate_payload_v4_positions c w p Hp) as [-> ->].
    destruct (finite_is_Fin _ Hx) as (? & ? & ? & ->).
    destruct (finite_is_Fin _ Hy) as (? & ? & ? & ->).
    split; apply format_6f_fixed.
Qed.

Lemma payload_positions_six_digits_witness :
  Py.fixed_decimal 6 "-12158.341600" = true /\
  Py.fixed_decimal 6 "3723.247500" = true.
Proof.
  apply (proj1 payload_positions_six_digits
           {| Upload.now := 10; Upload.now_str := "2025-06-01 12:00:00" |}
           V3.ready_world
           {| Upload.device_id := "3";
              Upload.position_x := "-12158.341600";
              Upload.position_y := "3723.247500";
              Upload.time_stamp := "2025-06-01 12:00:00";
              Upload.user_data := ["a"; "b"] |});
    reflexivity.
Defined.

(** C8, as stated, fails, in two ways.  When the coordinate fields of an
    accepted sentence read [nan], the payload of GPS_WIFI_Blue_3.py carries
    the text [nan], which has no digits after a point.  And the payload of
    GPS_WIFI_Blue_2.py, which prints with [str], carries after the scenario
    sentence the texts [-12158.3416] and [3723.2475], four digits after the
    point. *)
Lemma position_texts_not_six_digits :
  ~ (forall p,
       fst (V3.generate_payload
              {| Upload.now := 10; Upload.now_str := "2025-06-01 12:00:00" |}
              V3.nan_world) = Py.Ok (Some p) ->
       Py.fixed_decimal 6 (Upload.position_x p) = true /\
       Py.fixed_decimal 6 (Upload.position_y p) = true) /\
  ~ (forall p,
       fst (V2.generate_payload
              {| Upload.now := 10; Upload.now_str := "2025-06-01 12:00:00" |}
              V2.ready_world) = Py.Ok (Some p) ->
       Py.fixed_decimal 6 (Upload.position_x p) = true /\
       Py.fixed_decimal 6 (Upload.position_y p) = true).
Proof.
  split; intros H.
  - destruct (H {| Upload.device_id := "3";
                   Upload.position_x := "nan";
                   Upload.position_y := "nan";
                   Upload.time_stamp := "2025-06-01 12:00:00";
                   Upload.user_data := ["a"; "b"] |} eq_refl) as [Hx _].
    discriminate Hx.
  - destruct (H {| Upload.device_id := "3";
                   Upload.position_x := "-12158.3416";
                   Upload.position_y := "3723.2475";
                   Upload.time_stamp := "2025-06-01 12:00:00";
                   Upload.user_data := ["a"; "b"] |} eq_refl) as [Hx _].
    discriminate Hx.
Qed.

(** * Further properties of the code *)

(** ** The GLL parser and the poll *)

Lemma parse_gll_true_stamps float now s g g' :
  GPS._parse_gll float now s g = (Py.Ok true, g') ->
  GPS.fixed g' /\ GPS.last_gps_time g' = now.
Proof.
  unfold GPS._parse_gll, GPS.fixed. unfold_py.
  repeat (step_match; simpl in *; try discriminate);
    intros [= <-]; simpl; auto.
Qed.

(** X1: [_parse_gll] of GPS_WIFI_Blue_3.py and GPS_WIFI_Blue_4_.py raises
    nothing, whatever the sentence and whatever [float] does.  When it
    returns [True] the state holds the new fix and the time of the call;
    when it returns [False] the history is untouched and the whole state is
    either as before or the history restored as position: no sentence
    updates one coordinate without the other. *)
Theorem parse_gll_total_and_atomic :
  forall (float : string -> Py.exn + Py.pyfloat) (now : Q) (s : string)
         (g : GPS.state),
    exists b g',
      GPS._parse_gll float now s g = (Py.Ok b, g') /\
      (b = true -> GPS.fixed g' /\ GPS.last_gps_time g' = now) /\
      (b = false ->
       (g' = g \/ g' = GPS.use_history g) /\
       GPS.last_x g' = GPS.last_x g /\ GPS.last_y g' = GPS.last_y g).
Proof.
  intros float now s g. unfold GPS._parse_gll, GPS.fixed, Py.index. unfold_py.
  repeat (step_match; simpl in *; try discriminate);
    repeat match goal with
           | H : (_, _) = (_, _) |- _ => injection H as <- <-
           end;
    eexists; eexists; (split; [reflexivity|]);
    (split; [intros; try discriminate; simpl; auto|]);
    intros; try discriminate; simpl; auto.
Qed.

(** The model of [float] raises [ValueError] and nothing else. *)
Lemma float_raises_ValueError t e : Py.float t = inl e -> e = Py.ValueError.
Proof.
  unfold Py.float.
  repeat (step_match; simpl in *; try discriminate);
    intros [= <-]; reflexivity.
Qed.

(** X2: [_parse_gll] of GPS_WIFI_Blue_2.py raises exactly on the sentences
    of six fields, and what it raises there is [IndexError]: with fewer
    fields the guard rejects the sentence, with more the field is there,
    and a [ValueError] of [float] is caught. *)
Theorem parse_gll_v2_raises_iff_six_fields :
  forall (float : string -> Py.exn + Py.pyfloat) (s : string) (g : GPS.state),
    (forall t e, float t = inl e -> e = Py.ValueError) ->
    ((exists e g', GPS._parse_gll_v2 float s g = (Py.Raise e, g')) <->
     length (Py.split "," s) = 6%nat) /\
    (forall e g', GPS._parse_gll_v2 float s g = (Py.Raise e, g') ->
                  e = Py.IndexError /\ g' = g).
Proof.
  intros float s g Hfloat.
  assert (Hraise : forall e g', GPS._parse_gll_v2 float s g = (Py.Raise e, g') ->
                                length (Py.split "," s) = 6%nat /\
                                e = Py.IndexError /\ g' = g).
  { intros e g'. unfold GPS._parse_gll_v2, Py.index. unfold_py.
    destruct (6 <=? length (Py.split "," s))%nat eqn:E6; [|discriminate].
    apply Nat.leb_le in E6.
    destruct (Py.split "," s !! 6) as [st|] eqn:H6.
    - assert (6 < length (Py.split "," s))%nat by (apply lookup_lt_is_Some; eauto).
      destruct (lookup_lt_is_Some_2 (Py.split "," s) 1) as [p1 H1]; [lia|].
      destruct (lookup_lt_is_Some_2 (Py.split "," s) 2) as [p2 H2]; [lia|].
      destruct (lookup_lt_is_Some_2 (Py.split "," s) 3) as [p3 H3]; [lia|].
      destruct (lookup_lt_is_Some_2 (Py.split "," s) 4) as [p4 H4]; [lia|].
      rewrite H1, H2, H3, H4. simpl.
      destruct (st =? "A")%string; simpl.
      + destruct (float p1) as [e1|lat] eqn:F1; simpl.
        { rewrite (Hfloat _ _ F1). discriminate. }
        destruct (float p3) as [e3|lon] eqn:F3; simpl.
        { rewrite (Hfloat _ _ F3). discriminate. }
        discriminate.
      + destruct (Py.eq0 (GPS.last_x g)); discriminate.
    - apply lookup_ge_None in H6. simpl. intros [= <- <-].
      split; [lia | split; reflexivity]. }
  split; [split|].
  - intros (e & g' & H). apply (Hraise e g' H).
  - intros Hlen. exists Py.IndexError, g. apply parse_gll_v2_six_fields, Hlen.
  - intros e g' H. apply (Hraise e g' H).
Qed.

Lemma parse_gll_v2_raises_iff_six_fields_witness :
  ((exists e g', GPS._parse_gll_v2 Py.float "$GPGLL,1,N,2,E,3" GPS.init
                 = (Py.Raise e, g')) <->
   length (Py.split "," "$GPGLL,1,N,2,E,3") = 6%nat) /\
  (forall e g', GPS._parse_gll_v2 Py.float "$GPGLL,1,N,2,E,3" GPS.init
                = (Py.Raise e, g') ->
                e = Py.IndexError /\ g' = GPS.init).
Proof.
  apply (parse_gll_v2_raises_iff_six_fields Py.float "$GPGLL,1,N,2,E,3" GPS.init).
  exact float_raises_ValueError.
Defined.




(** X4: the poll of GPS_WIFI_Blue_3.py and GPS_WIFI_Blue_4_.py is gated by
    the time of the last accepted sentence: for [period] seconds after a
    sentence was accepted at time [t], [read_gps_data] returns without
    touching the state, whatever the receiver has sent. *)
Theorem poll_is_gated_after_a_fix :
  forall (float : string -> Py.exn + Py.pyfloat) (period t now : Q)
         (s : string) (u : GPS.uart) (g g1 : GPS.state),
    GPS._parse_gll float t s g = (Py.Ok true, g1) ->
    (now - t < period)%Q ->
    GPS.read_gps_data float period now u g1 = (Py.Ok tt, g1).
Proof.
  intros float period t now s u g g1 Hparse Hlt.
  destruct (parse_gll_true_stamps float t s g g1 Hparse) as [_ Ht].
  unfold GPS.read_gps_data. unfold_py. rewrite Ht.
  destruct (Qle_bool period (now - t)) eqn:E; [|reflexivity].
  apply Qle_bool_iff in E. exfalso. apply (Qlt_not_le _ _ Hlt E).
Qed.

Lemma poll_is_gated_after_a_fix_witness :
  (7 + (1 # 2) - 7 < 1)%Q /\
  GPS.read_gps_data Py.float 1 (7 + (1 # 2))
    (GPS.Text "$GPGLL,4000.0000,N,00500.0000,E,161230.000,A")
    (Py.exec (GPS._parse_gll Py.float 7 GPS.scenario) GPS.init)
  = (Py.Ok tt, Py.exec (GPS._parse_gll Py.float 7 GPS.scenario) GPS.init).
Proof.
  split; [reflexivity|].
  apply (poll_is_gated_after_a_fix Py.float 1 7 (7 + (1 # 2)) GPS.scenario
           (GPS.Text "$GPGLL,4000.0000,N,00500.0000,E,161230.000,A") GPS.init);
    reflexivity.
Defined.

(** X5: the history counts as present only when the stored longitude
    differs from 0.  With [last_x] equal to 0 (nothing stored yet, or a fix
    on the zero meridian) void sentences change nothing, so a flag that was
    cleared stays cleared; with any other [last_x] a void sentence sets the
    flag and puts the stored fix back as position. *)
Theorem void_restores_history_unless_longitude_zero :
  forall (v : GPS.variant) (float : string -> Py.exn + Py.pyfloat) (now : Q)
         (voids : list string) (g : GPS.state),
    Forall GPS.void voids ->
    (Py.eq0 (GPS.last_x g) = true ->
     GPS.feed (GPS.parser v float now) voids g = g) /\
    (Py.eq0 (GPS.last_x g) = false ->
     forall s, In s voids ->
               Py.exec (GPS.parser v float now s) g = GPS.use_history g).
Proof.
  intros v float now voids g Hv.
  assert (Hone : forall s g0, GPS.void s ->
            Py.exec (GPS.parser v float now s) g0
            = if Py.eq0 (GPS.last_x g0) then g0 else GPS.use_history g0).
  { intros s g0 (st & Hst & Hne). unfold GPS.status in Hst.
    assert (Hlen : (6 < length (Py.split "," s))%nat)
      by (apply lookup_lt_is_Some; eauto).
    assert (Hneq : (st =? "A")%string = false) by (apply String.eqb_neq; exact Hne).
    assert (E1 : (6 <=? length (Py.split "," s))%nat = true)
      by (apply Nat.leb_le; lia).
    assert (E2 : (length (Py.split "," s) <? 7)%nat = false)
      by (apply Nat.ltb_ge; lia).
    destruct v; unfold GPS.parser, GPS._parse_gll_v2, GPS._parse_gll, Py.index,
      Py.ne0; unfold_py; rewrite ?E1, ?E2, Hst, Hneq; cbn [negb];
      destruct (Py.eq0 (GPS.last_x g0)); reflexivity. }
  split.
  - intros Hz. induction Hv as [|s voids Hs _ IH]; simpl; [reflexivity|].
    fold (GPS.feed (GPS.parser v float now) voids).
    rewrite (Hone s g Hs), Hz. exact IH.
  - intros Hz s Hin. rewrite Forall_forall in Hv.
    rewrite (Hone s g) by (apply Hv, list_elem_of_In, Hin). rewrite Hz. reflexivity.
Qed.

Lemma void_restores_history_unless_longitude_zero_witness :
  (Py.eq0 (GPS.last_x GPS.init) = true ->
   GPS.feed (GPS.parser GPS.Blue_4 Py.float 3) [GPS.void_sentence; GPS.void_sentence]
     GPS.init = GPS.init) /\
  (Py.eq0 (GPS.last_x GPS.init) = false ->
   forall s, In s [GPS.void_sentence; GPS.void_sentence] ->
             Py.exec (GPS.parser GPS.Blue_4 Py.float 3 s) GPS.init
             = GPS.use_history GPS.init).
Proof.
  apply (void_restores_history_unless_longitude_zero GPS.Blue_4 Py.float 3
           [GPS.void_sentence; GPS.void_sentence] GPS.init).
  repeat constructor; apply void_sentence_is_void.
Defined.

(** A fix on the zero meridian is accepted, but once the flag is cleared
    (as a successful upload does) a void sentence does not bring it back. *)
Example zero_meridian_fix_is_not_restored :
  GPS.gps_data_valid
    (Py.exec (GPS._parse_gll Py.float 9 GPS.void_sentence)
       (V3.gps (V3.clear_flags
          {| V3.gps := Py.exec (GPS._parse_gll Py.float 7
                                  "$GPGLL,5130.0000,N,00000.0000,E,120000.000,A")
                         GPS.init;
             V3.user_data := []; V3.ble_data_received := true;
             V3.cache := Upload.no_cache |})))
  = false.
Proof. reflexivity. Qed.

(** ** The ring buffer on the states it can reach *)

(** X6: what [get_new(n)] returns after any pushes into a fresh
    [data_pool(size)].  The pushes raise nothing, and [get_new(n)] is the
    [n] samples pushed last, in the order they were pushed and with no
    empty slot among them, when [n] is at most the number of pushes modulo
    [size]; otherwise it is [None]. *)
Theorem get_new_after_pushes :
  forall (A : Type) (size n : nat) (items : list A),
    (0 < size)%nat ->
    fst (Pool.pushes items (Pool.new size)) = Py.Ok tt /\
    fst (Pool.get_new n (Py.exec (Pool.pushes items) (Pool.new size)))
    = Py.Ok (if (n <=? length items mod size)%nat
             then Some (Some <$> drop (length items - n) items)
             else None).
Proof.
  intros A size n items Hsize.
  destruct (pushes_new size items Hsize) as (p' & Hrun & _ & _ & Hidx & _).
  split; [rewrite Hrun; reflexivity|].
  destruct (n <=? length items mod size)%nat eqn:E.
  - apply Nat.leb_le in E. apply get_new_recent; assumption.
  - apply Nat.leb_gt in E. unfold Py.exec. rewrite Hrun. simpl.
    unfold Pool.get_new. unfold_py. rewrite Hidx.
    assert (E' : (n <=? length items mod size)%nat = false)
      by (apply Nat.leb_gt; exact E).
    rewrite E'. reflexivity.
Qed.

Lemma get_new_after_pushes_witness :
  fst (Pool.pushes [1; 2; 3; 4; 5; 6; 7; 8; 9; 10; 11; 12; 13; 14; 15; 16]%nat
         (Pool.new 10)) = Py.Ok tt /\
  fst (Pool.get_new 4
         (Py.exec (Pool.pushes
                     [1; 2; 3; 4; 5; 6; 7; 8; 9; 10; 11; 12; 13; 14; 15; 16]%nat)
            (Pool.new 10)))
  = Py.Ok (Some [Some 13; Some 14; Some 15; Some 16]%nat).
Proof.
  apply (get_new_after_pushes nat 10 4
           [1; 2; 3; 4; 5; 6; 7; 8; 9; 10; 11; 12; 13; 14; 15; 16]%nat).
  lia.
Defined.

(** X7: once [size] samples or more were pushed, the buffer holds exactly
    the last [size] samples: read from the cursor to the end and then from
    the start to the cursor, it is these samples in the order they were
    pushed.  Nothing older is kept and nothing newer is missing. *)
Theorem buffer_holds_last_size_samples :
  forall (A : Type) (size : nat) (items : list A),
    (0 < size)%nat ->
    (size <= length items)%nat ->
    BLE.rotate (Pool.index (Py.exec (Pool.pushes items) (Pool.new size)))
      (Pool.buffer (Py.exec (Pool.pushes items) (Pool.new size)))
    = Some <$> drop (length items - size) items.
Proof.
  intros A size items Hsize Hfull.
  set (r := (length items mod size)%nat).
  set (q := (length items / size)%nat).
  assert (Hdiv : length items = (q * size + r)%nat)
    by (subst q r; rewrite (Nat.div_mod_eq (length items) size) at 1; lia).
  assert (Hr : (r < size)%nat) by (apply Nat.mod_upper_bound; lia).
  assert (Hq : (0 < q)%nat) by (destruct q; [simpl in Hdiv; lia | lia]).
  set (front := take (length items - r) items).
  set (tail := drop (length items - r) items).
  assert (Hcut : Pool.pushes items (Pool.new size)
                 = Pool.pushes (front ++ tail) (Pool.new size))
    by (subst front tail; rewrite take_drop; reflexivity).
  assert (Hfront : length front = (q * size)%nat)
    by (subst front; rewrite length_take; lia).
  assert (Htail : length tail = r) by (subst tail; rewrite length_drop; lia).
  destruct (pushes_laps q front (Pool.new size))
    as (p1 & Hrun & Hwf1 & Hsize1 & Hidx1 & _ & Hbuf1).
  { apply new_wf, Hsize. }
  { reflexivity. }
  { exact Hfront. }
  simpl in Hsize1. specialize (Hbuf1 Hq). simpl in Hbuf1.
  unfold Py.exec. rewrite Hcut, pushes_app. unfold Py.bind. rewrite Hrun.
  rewrite pushes_block by (rewrite ?Htail, ?Hidx1, ?Hsize1; auto; lia).
  simpl. rewrite Hidx1, Htail, Hsize1. simpl.
  rewrite Nat.mod_small by lia.
  unfold BLE.rotate.
  rewrite drop_app_length' by (rewrite length_fmap; symmetry; exact Htail).
  rewrite take_app_length' by (rewrite length_fmap; symmetry; exact Htail).
  rewrite Hbuf1, <- fmap_drop, drop_drop, <- fmap_app. f_equal.
  rewrite Hfront.
  assert (Hlap : (size <= q * size)%nat) by nia.
  replace (q * size - size + r)%nat with (length items - size)%nat by lia.
  subst front tail.
  symmetry.
  transitivity (drop (length items - size)
                  (take (length items - r) items ++ drop (length items - r) items)).
  - rewrite take_drop. reflexivity.
  - apply drop_app_le. rewrite length_take. lia.
Qed.

Lemma buffer_holds_last_size_samples_witness :
  BLE.rotate
    (Pool.index (Py.exec (Pool.pushes [1; 2; 3; 4; 5; 6; 7]%nat) (Pool.new 3)))
    (Pool.buffer (Py.exec (Pool.pushes [1; 2; 3; 4; 5; 6; 7]%nat) (Pool.new 3)))
  = [Some 5; Some 6; Some 7]%nat.
Proof.
  apply (buffer_holds_last_size_samples nat 3 [1; 2; 3; 4; 5; 6; 7]%nat);
    simpl; lia.
Defined.

(** ** The BLE write handlers *)

Section BLEFacts.

Local Open Scope list_scope.

Implicit Types (st : BLE.state) (ws data : list string) (x : string).

(** Rotating one step further after the oldest entry was replaced drops
    that entry and puts the new one last. *)
Lemma rotate_insert {B} (l : list B) (c : nat) (x : B) :
  (c < length l)%nat ->
  BLE.rotate ((c + 1) mod length l) (<[c := x]> l)
  = drop 1 (BLE.rotate c l) ++ [x].
Proof.
  intros Hc. unfold BLE.rotate.
  destruct (lookup_lt_is_Some_2 l c Hc) as [y Hy].
  rewrite (drop_S l y c Hy). simpl. rewrite drop_0.
  rewrite (insert_take_drop l c x) by exact Hc.
  assert (Htake : length (take c l) = c) by (rewrite length_take; lia).
  destruct (decide (c + 1 < length l)%nat) as [Hlt|Hge].
  - rewrite Nat.mod_small by exact Hlt.
    rewrite (drop_app_ge (take c l)) by lia.
    rewrite (take_app_ge (take c l)) by lia.
    rewrite Htake. replace (c + 1 - c)%nat with 1%nat by lia.
    simpl. rewrite drop_0, take_0, <- app_assoc. reflexivity.
  - assert (Hlast : (c + 1)%nat = length l) by lia.
    rewrite Hlast, Nat.Div0.mod_same. simpl. rewrite app_nil_r.
    rewrite (drop_ge l (S c)) by lia. reflexivity.
Qed.

(** Bytes that are not ASCII leave everything as it was. *)
Lemma on_write_v3_not_ascii L x st :
  BLE.is_ascii x = false -> BLE.on_write_v3 L x st = (Py.Ok tt, st).
Proof.
  intros H. unfold BLE.on_write_v3. unfold_py. rewrite H. reflexivity.
Qed.

Lemma on_write_v3_store L x st :
  BLE.is_ascii x = true -> (BLE.data_len st < L)%nat ->
  Py.exec (BLE.on_write_v3 L x) st = BLE.store x st.
Proof.
  intros Hx Hlt. unfold BLE.on_write_v3. unfold_py. rewrite Hx.
  assert (E : (L <=? BLE.data_len st)%nat = false) by (apply Nat.leb_gt; lia).
  rewrite E. reflexivity.
Qed.

Lemma on_write_v3_overwrite L x st :
  BLE.is_ascii x = true -> (0 < L)%nat -> (L <= BLE.data_len st)%nat ->
  (BLE.data_len st mod L < length (BLE.list_data st))%nat ->
  Py.exec (BLE.on_write_v3 L x) st
  = if (200 <=? BLE.up_len st + 1)%nat
    then BLE.publish
           (take L (BLE.rotate ((BLE.data_len st + 1) mod L)
                      (<[BLE.data_len st mod L := x]> (BLE.list_data st))))
           (BLE.overwrite (BLE.data_len st mod L) x st)
    else BLE.overwrite (BLE.data_len st mod L) x st.
Proof.
  intros Hx HL Hfull Hi. unfold BLE.on_write_v3. unfold_py. rewrite Hx.
  assert (E : (L <=? BLE.data_len st)%nat = true) by (apply Nat.leb_le; lia).
  assert (E0 : (L =? 0)%nat = false) by (apply Nat.eqb_neq; lia).
  apply Nat.ltb_lt in Hi.
  rewrite E, E0, Hi.
  cbn [BLE.overwrite BLE.up_len BLE.data_len BLE.list_data fst snd].
  destruct (200 <=? BLE.up_len st + 1)%nat; reflexivity.
Qed.

(** The state after a stream of ASCII writes, in GPS_WIFI_Blue_3.py. *)
Lemma writes_v3_ascii L ws :
  (0 < L)%nat ->
  Forall (fun x => BLE.is_ascii x = true) ws ->
  let st := BLE.writes (BLE.on_write_v3 L) ws BLE.init in
  BLE.data_len st = length ws /\
  length (BLE.list_data st) = (length ws `min` L)%nat /\
  ((length ws <= L)%nat ->
   BLE.list_data st = ws /\ BLE.up_len st = 0%nat /\
   BLE.ble_data_received st = false /\ BLE.user_data st = []) /\
  ((L <= length ws)%nat ->
   BLE.rotate (length ws mod L) (BLE.list_data st) = drop (length ws - L) ws /\
   exists k u,
     length ws = (L + 200 * k + u)%nat /\ (u < 200)%nat /\ BLE.up_len st = u /\
     (k = 0%nat -> BLE.ble_data_received st = false /\ BLE.user_data st = []) /\
     ((0 < k)%nat ->
      BLE.ble_data_received st = true /\
      BLE.user_data st = drop (200 * k) (take (L + 200 * k) ws))).
Proof.
  intros HL. induction ws as [|x ws IH] using rev_ind; intros Hall.
  - simpl. repeat split; try reflexivity; try lia.
  - apply Forall_app in Hall as [Hws Hx].
    apply Forall_cons in Hx as [Hx _].
    specialize (IH Hws). cbv zeta in IH.
    destruct IH as (Hlen & Hsize & Hfill & Hring).
    cbv zeta. unfold BLE.writes in *. rewrite fold_left_app. simpl fold_left.
    set (st := fold_left (fun st d => Py.exec (BLE.on_write_v3 L d) st) ws BLE.init) in *.
    rewrite length_app. simpl length.
    destruct (decide (L <= length ws)%nat) as [E|E].
    + (* the list is full: the oldest entry is replaced *)
      destruct (Hring E) as (Hrot & k & u & Hn & Hu & Hup & Hk0 & Hk).
      assert (Hlist : length (BLE.list_data st) = L) by lia.
      rewrite on_write_v3_overwrite;
        [ | exact Hx | exact HL | lia
          | rewrite Hlist; apply Nat.mod_upper_bound; lia ].
      assert (Hrot' :
        BLE.rotate ((length ws + 1) mod L)
          (<[length ws mod L := x]> (BLE.list_data st))
        = drop (length ws + 1 - L) (ws ++ [x])).
      { rewrite <- Nat.Div0.add_mod_idemp_l.
        rewrite <- Hlist at 2.
        rewrite rotate_insert by (rewrite Hlist; apply Nat.mod_upper_bound; lia).
        rewrite Hrot, drop_drop.
        rewrite drop_app_le by lia.
        do 2 f_equal. lia. }
      rewrite Hup, Hlen.
      destruct (200 <=? u + 1)%nat eqn:E200;
        cbn [BLE.publish BLE.overwrite BLE.up_len BLE.data_len BLE.list_data
             BLE.user_data BLE.ble_data_received].
      * apply Nat.leb_le in E200.
        split; [lia|]. split; [rewrite length_insert; lia|].
        split; [intros; lia|]. intros _.
        split; [exact Hrot'|].
        exists (k + 1)%nat, 0%nat.
        split; [lia|]. split; [lia|]. split; [reflexivity|].
        split; [intros; lia|]. intros _.
        split; [reflexivity|].
        rewrite Hrot'.
        rewrite (take_ge (ws ++ [x])) by (rewrite length_app; simpl; lia).
        rewrite take_ge by (rewrite length_drop, length_app; simpl; lia).
        f_equal. lia.
      * apply Nat.leb_gt in E200.
        split; [lia|]. split; [rewrite length_insert; lia|].
        split; [intros; lia|]. intros _.
        split; [exact Hrot'|].
        exists k, (u + 1)%nat.
        split; [lia|]. split; [lia|]. split; [lia|].
        split; [exact Hk0|]. intros Hpos.
        destruct (Hk Hpos) as [Hflag Hdata].
        split; [exact Hflag|]. rewrite Hdata.
        rewrite take_app_le by lia. reflexivity.
    + (* the list is still filling *)
      destruct (Hfill ltac:(lia)) as (Hlist & Hup & Hflag & Hdata).
      rewrite on_write_v3_store by (auto; lia).
      cbn [BLE.store BLE.up_len BLE.data_len BLE.list_data BLE.user_data
           BLE.ble_data_received].
      split; [lia|]. split; [rewrite length_app; simpl; lia|].
      split.
      * intros _. rewrite Hlist. auto.
      * intros Hle. assert (Hfull : (length ws + 1)%nat = L) by lia.
        rewrite Hfull, Nat.Div0.mod_same, Nat.sub_diag.
        unfold BLE.rotate. simpl. rewrite drop_0, app_nil_r.
        split; [rewrite Hlist; reflexivity|].
        exists 0%nat, 0%nat.
        split; [lia|]. split; [lia|]. split; [exact Hup|].
        split; [auto|]. intros; lia.
Qed.

Lemma writes_v3_filter L data : forall st,
  BLE.writes (BLE.on_write_v3 L) data st
  = BLE.writes (BLE.on_write_v3 L) (List.filter BLE.is_ascii data) st.
Proof.
  unfold BLE.writes. induction data as [|d data IH]; intros st; simpl.
  - reflexivity.
  - destruct (BLE.is_ascii d) eqn:E; simpl.
    + apply IH.
    + unfold Py.exec at 2. rewrite on_write_v3_not_ascii by exact E. apply IH.
Qed.

Lemma filter_is_ascii data :
  Forall (fun x => BLE.is_ascii x = true) (List.filter BLE.is_ascii data).
Proof.
  apply Forall_forall. intros x Hx. apply list_elem_of_In, filter_In in Hx.
  apply Hx.
Qed.

(** The state after a stream of non-empty ASCII writes, in
    GPS_WIFI_Blue_2.py: [k] lists were handed over and [r] texts wait. *)
Lemma writes_v2_ascii L ws :
  Forall (fun x => x <> EmptyString /\ BLE.is_ascii x = true) ws ->
  let st := BLE.writes (BLE.on_write_v2 L) ws BLE.init in
  exists k r,
    length ws = ((L + 1) * k + r)%nat /\ (r <= L)%nat /\
    BLE.data_len st = r /\
    BLE.list_data st = drop (length ws - r) ws /\
    (k = 0%nat -> BLE.ble_data_received st = false /\ BLE.user_data st = []) /\
    ((0 < k)%nat ->
     BLE.ble_data_received st = true /\
     BLE.user_data st = take L (drop ((L + 1) * (k - 1)) ws)).
Proof.
  induction ws as [|x ws IH] using rev_ind; intros Hall.
  - exists 0%nat, 0%nat. simpl. repeat split; try reflexivity; try lia.
  - apply Forall_app in Hall as [Hws Hx].
    apply Forall_cons in Hx as [[Hne Hx] _].
    specialize (IH Hws). cbv zeta in IH.
    destruct IH as (k & r & Hn & Hr & Hlen & Hlist & Hk0 & Hk).
    cbv zeta. unfold BLE.writes in *. rewrite fold_left_app. simpl fold_left.
    set (st := fold_left (fun st d => Py.exec (BLE.on_write_v2 L d) st) ws BLE.init) in *.
    rewrite length_app. simpl length.
    assert (Hstep : Py.exec (BLE.on_write_v2 L x) st
                    = if (BLE.data_len st =? L)%nat then BLE.hand_over st
                      else BLE.store x st).
    { unfold BLE.on_write_v2. unfold_py.
      apply String.eqb_neq in Hne. rewrite Hne, Hx.
      destruct (BLE.data_len st =? L)%nat; reflexivity. }
    rewrite Hstep, Hlen. clear Hstep.
    destruct (r =? L)%nat eqn:E.
    + (* the list is full: it is handed over, the text is not stored *)
      apply Nat.eqb_eq in E. rewrite E in Hn, Hlist.
      exists (k + 1)%nat, 0%nat.
      cbn [BLE.hand_over BLE.data_len BLE.list_data BLE.user_data
           BLE.ble_data_received].
      split; [lia|]. split; [lia|]. split; [reflexivity|].
      split; [rewrite drop_ge by (rewrite length_app; simpl; lia); reflexivity|].
      split; [intros; lia|]. intros _.
      split; [reflexivity|].
      rewrite Hlist.
      replace ((L + 1) * (k + 1 - 1))%nat with (length ws - L)%nat by nia.
      rewrite drop_app_le by lia.
      rewrite take_app_length' by (rewrite length_drop; lia).
      reflexivity.
    + apply Nat.eqb_neq in E.
      exists k, (r + 1)%nat.
      cbn [BLE.store BLE.data_len BLE.list_data BLE.user_data
           BLE.ble_data_received].
      split; [lia|]. split; [lia|]. split; [lia|].
      split.
      { rewrite Hlist.
        replace (length ws + 1 - (r + 1))%nat with (length ws - r)%nat by lia.
        rewrite drop_app_le by lia. reflexivity. }
      split; [exact Hk0|]. intros Hpos.
      destruct (Hk Hpos) as [Hflag Hdata].
      split; [exact Hflag|]. rewrite Hdata.
      assert (Hprev : ((L + 1) * (k - 1) + (L + 1) = (L + 1) * k)%nat) by nia.
      rewrite drop_app_le by lia.
      rewrite take_app_le by (rewrite length_drop; lia).
      reflexivity.
Qed.

End BLEFacts.

(** X8: the write handler of GPS_WIFI_Blue_3.py on any stream of writes,
    for a [list_len] above 0.  Writes that are not ASCII leave no trace.
    Of the others, the list keeps the last [list_len], oldest at the
    cursor; nothing is published before [list_len + 200] of them arrived;
    from then on [user_data] is the [list_len] texts that preceded the
    latest multiple of 200 after filling, in their order of arrival. *)
Theorem ble_v3_publishes_last_window :
  forall (list_len : nat) (data : list string),
    (0 < list_len)%nat ->
    BLE.data_len (BLE.writes (BLE.on_write_v3 list_len) data BLE.init)
    = length (List.filter BLE.is_ascii data) /\
    ((list_len <= length (List.filter BLE.is_ascii data))%nat ->
     BLE.rotate (length (List.filter BLE.is_ascii data) mod list_len)
       (BLE.list_data (BLE.writes (BLE.on_write_v3 list_len) data BLE.init))
     = drop (length (List.filter BLE.is_ascii data) - list_len)
         (List.filter BLE.is_ascii data)) /\
    ((length (List.filter BLE.is_ascii data) < list_len + 200)%nat ->
     BLE.ble_data_received (BLE.writes (BLE.on_write_v3 list_len) data BLE.init)
     = false /\
     BLE.user_data (BLE.writes (BLE.on_write_v3 list_len) data BLE.init) = []) /\
    (forall k u : nat,
       (0 < k)%nat -> (u < 200)%nat ->
       length (List.filter BLE.is_ascii data) = (list_len + 200 * k + u)%nat ->
       BLE.ble_data_received (BLE.writes (BLE.on_write_v3 list_len) data BLE.init)
       = true /\
       BLE.user_data (BLE.writes (BLE.on_write_v3 list_len) data BLE.init)
       = drop (200 * k)
           (take (list_len + 200 * k) (List.filter BLE.is_ascii data))).
Proof.
  intros L data HL. rewrite writes_v3_filter.
  pose proof (writes_v3_ascii L _ HL (filter_is_ascii data)) as H.
  cbv zeta in H. destruct H as (Hlen & _ & Hfill & Hring).
  set (ws := List.filter BLE.is_ascii data) in *.
  split; [exact Hlen|]. split; [intros Hle; apply (Hring Hle)|]. split.
  - intros Hlt. destruct (decide (length ws <= L)%nat) as [Hle|Hgt].
    + destruct (Hfill Hle) as (_ & _ & Hflag & Hdata). auto.
    + destruct (Hring ltac:(lia)) as (_ & k & u & Hn & Hu & _ & Hk0 & _).
      apply Hk0. lia.
  - intros k u Hk Hu Hn.
    destruct (Hring ltac:(lia)) as (_ & k' & u' & Hn' & Hu' & _ & _ & Hpub).
    assert (k' = k) by lia. subst k'.
    apply Hpub, Hk.
Qed.

Lemma ble_v3_publishes_last_window_witness :
  (0 < 2)%nat /\
  BLE.data_len (BLE.writes (BLE.on_write_v3 2) ["a"; String "200" ""; "b"; "c"] BLE.init)
  = 3%nat /\
  BLE.rotate (3 mod 2)
    (BLE.list_data
       (BLE.writes (BLE.on_write_v3 2) ["a"; String "200" ""; "b"; "c"] BLE.init))
  = ["b"; "c"] /\
  BLE.ble_data_received
    (BLE.writes (BLE.on_write_v3 2) ["a"; String "200" ""; "b"; "c"] BLE.init)
  = false.
Proof.
  split; [lia|].
  destruct (ble_v3_publishes_last_window 2 ["a"; String "200" ""; "b"; "c"])
    as (Hlen & Hring & Hquiet & _); [lia|].
  split; [exact Hlen|]. split; [apply Hring; simpl; lia|].
  apply Hquiet. simpl. lia.
Defined.

(** X9: what a payload of GPS_WIFI_Blue_3.py carries.  [generate_payload]
    sends the last 200 entries of [user_data]; with a [list_len] of 200 or
    more, once the handler has published, these are the 200 texts that
    arrived just before the latest publication.  The first publication is
    made after [list_len + 200] texts, so the first [list_len] texts of a
    session are in no payload. *)
Theorem payload_carries_the_200_newest :
  forall (list_len k u : nat) (data : list string),
    (200 <= list_len)%nat -> (0 < k)%nat -> (u < 200)%nat ->
    length (List.filter BLE.is_ascii data) = (list_len + 200 * k + u)%nat ->
    V3.last_200 (BLE.user_data (BLE.writes (BLE.on_write_v3 list_len) data BLE.init))
    = drop (list_len + 200 * k - 200)
        (take (list_len + 200 * k) (List.filter BLE.is_ascii data)).
Proof.
  intros L k u data HL Hk Hu Hn. rewrite writes_v3_filter.
  pose proof (writes_v3_ascii L _ ltac:(lia) (filter_is_ascii data)) as H.
  cbv zeta in H. destruct H as (_ & _ & _ & Hring).
  set (ws := List.filter BLE.is_ascii data) in *.
  destruct (Hring ltac:(lia)) as (_ & k' & u' & Hn' & Hu' & _ & _ & Hpub).
  assert (k' = k) by lia. subst k'.
  destruct (Hpub Hk) as [_ ->].
  unfold V3.last_200.
  assert (Hlen : length (drop (200 * k) (take (L + 200 * k) ws)) = L)
    by (rewrite length_drop, length_take; lia).
  rewrite Hlen.
  destruct (200 <? L)%nat eqn:E.
  - rewrite drop_drop. f_equal. lia.
  - apply Nat.ltb_ge in E. f_equal. lia.
Qed.

Lemma payload_carries_the_200_newest_witness :
  V3.last_200
    (BLE.user_data (BLE.writes (BLE.on_write_v3 200) (replicate 401 "s") BLE.init))
  = drop (200 + 200 * 1 - 200)
      (take (200 + 200 * 1) (List.filter BLE.is_ascii (replicate 401 "s"))).
Proof.
  apply (payload_carries_the_200_newest 200 1 1 (replicate 401 "s")).
  - lia.
  - lia.
  - lia.
  - vm_compute. reflexivity.
Defined.

(** X10: the write handler of GPS_WIFI_Blue_2.py on a stream of non-empty
    ASCII writes.  The writes come in rounds of [list_len + 1]: the first
    [list_len] of a round are collected, and the last one only triggers the
    hand-over of these to [user_data]; its own text is stored nowhere.
    After [k] full rounds and [r] more writes, [user_data] is the
    [list_len] texts of round [k] and the list holds the [r] newest. *)
Theorem ble_v2_hands_over_and_drops_one :
  forall (list_len : nat) (ws : list string),
    Forall (fun x => x <> EmptyString /\ BLE.is_ascii x = true) ws ->
    exists k r,
      length ws = ((list_len + 1) * k + r)%nat /\ (r <= list_len)%nat /\
      BLE.data_len (BLE.writes (BLE.on_write_v2 list_len) ws BLE.init) = r /\
      BLE.list_data (BLE.writes (BLE.on_write_v2 list_len) ws BLE.init)
      = drop (length ws - r) ws /\
      (k = 0%nat ->
       BLE.ble_data_received (BLE.writes (BLE.on_write_v2 list_len) ws BLE.init)
       = false /\
       BLE.user_data (BLE.writes (BLE.on_write_v2 list_len) ws BLE.init) = []) /\
      ((0 < k)%nat ->
       BLE.ble_data_received (BLE.writes (BLE.on_write_v2 list_len) ws BLE.init)
       = true /\
       BLE.user_data (BLE.writes (BLE.on_write_v2 list_len) ws BLE.init)
       = take list_len (drop ((list_len + 1) * (k - 1)) ws)).
Proof.
  intros L ws Hall. exact (writes_v2_ascii L ws Hall).
Qed.

Lemma ble_v2_hands_over_and_drops_one_witness :
  exists k r,
    length ["a"; "b"; "c"; "d"; "e"; "f"; "g"] = ((2 + 1) * k + r)%nat /\
    (r <= 2)%nat /\
    BLE.data_len
      (BLE.writes (BLE.on_write_v2 2) ["a"; "b"; "c"; "d"; "e"; "f"; "g"] BLE.init)
    = r /\
    BLE.list_data
      (BLE.writes (BLE.on_write_v2 2) ["a"; "b"; "c"; "d"; "e"; "f"; "g"] BLE.init)
    = drop (length ["a"; "b"; "c"; "d"; "e"; "f"; "g"] - r)
        ["a"; "b"; "c"; "d"; "e"; "f"; "g"] /\
    (k = 0%nat ->
     BLE.ble_data_received
       (BLE.writes (BLE.on_write_v2 2) ["a"; "b"; "c"; "d"; "e"; "f"; "g"] BLE.init)
     = false /\
     BLE.user_data
       (BLE.writes (BLE.on_write_v2 2) ["a"; "b"; "c"; "d"; "e"; "f"; "g"] BLE.init)
     = []) /\
    ((0 < k)%nat ->
     BLE.ble_data_received
       (BLE.writes (BLE.on_write_v2 2) ["a"; "b"; "c"; "d"; "e"; "f"; "g"] BLE.init)
     = true /\
     BLE.user_data
       (BLE.writes (BLE.on_write_v2 2) ["a"; "b"; "c"; "d"; "e"; "f"; "g"] BLE.init)
     = take 2 (drop ((2 + 1) * (k - 1)) ["a"; "b"; "c"; "d"; "e"; "f"; "g"])).
Proof.
  apply (ble_v2_hands_over_and_drops_one 2 ["a"; "b"; "c"; "d"; "e"; "f"; "g"]).
  repeat constructor; discriminate.
Defined.

(** Seven writes with a [list_len] of 2: the third and the sixth text are
    in no list. *)
Example ble_v2_third_write_is_lost :
  BLE.writes (BLE.on_write_v2 2) ["a"; "b"; "c"; "d"; "e"; "f"; "g"] BLE.init
  = {| BLE.connected := false; BLE.list_data := ["g"]; BLE.user_data := ["d"; "e"];
       BLE.ble_data_received := true; BLE.data_len := 1; BLE.up_len := 0 |}.
Proof. reflexivity. Qed.

(** ** The cached time text *)

(** The cache after some calls is the one before them or the reading of
    one of the calls. *)
Lemma time_cache_after ttl calls : forall t0,
  Py.exec (Clock.time_strs ttl calls) t0 = t0 \/
  exists c, In c calls /\
            Py.exec (Clock.time_strs ttl calls) t0
            = {| Upload._last_time_str := Upload.now_str c;
                 Upload._last_time_sec := Upload.now c |}.
Proof.
  induction calls as [|c calls IH]; intros t0; [left; reflexivity|].
  assert (Hstep : Py.exec (Clock.time_strs ttl (c :: calls)) t0
                  = Py.exec (Clock.time_strs ttl calls)
                      (Py.exec (Upload._get_current_time_str ttl c) t0)).
  { simpl. unfold_py.
    destruct (Upload._get_current_time_str ttl c t0) as [[t|e] t1] eqn:E1.
    - simpl. destruct (Clock.time_strs ttl calls t1) as [[ts|e] t2]; reflexivity.
    - exfalso. revert E1. unfold Upload._get_current_time_str. unfold_py.
      destruct (negb _); discriminate. }
  rewrite Hstep.
  assert (Hone : Py.exec (Upload._get_current_time_str ttl c) t0 = t0 \/
                 Py.exec (Upload._get_current_time_str ttl c) t0
                 = {| Upload._last_time_str := Upload.now_str c;
                      Upload._last_time_sec := Upload.now c |}).
  { unfold Upload._get_current_time_str. unfold_py.
    destruct (negb _); simpl; auto. }
  destruct (IH (Py.exec (Upload._get_current_time_str ttl c) t0))
    as [Hsame | (c' & Hin & Hc')].
  - rewrite Hsame. destruct Hone as [-> | ->]; [left; reflexivity|].
    right. exists c. split; [left; reflexivity | reflexivity].
  - right. exists c'. split; [right; exact Hin | exact Hc'].
Qed.

(** X11: the text [_get_current_time_str] returns after any earlier calls.
    It is the text of the present reading, or the text of an earlier call
    whose reading is less than [ttl] seconds before the present one, or,
    when nothing was cached yet and the clock itself reads less than
    [ttl], the empty text of the initial cache. *)
Theorem time_str_is_fresh_or_initial :
  forall (ttl : Q) (calls : list Upload.clock) (c : Upload.clock),
    exists t,
      fst (Upload._get_current_time_str ttl c
             (Py.exec (Clock.time_strs ttl calls) Upload.no_cache)) = Py.Ok t /\
      (t = Upload.now_str c \/
       (exists c', In c' calls /\ t = Upload.now_str c' /\
                   (Upload.now c - Upload.now c' < ttl)%Q) \/
       (t = EmptyString /\ (Upload.now c - 0 < ttl)%Q)).
Proof.
  intros ttl calls c.
  destruct (time_cache_after ttl calls Upload.no_cache) as [-> | (c' & Hin & ->)];
    unfold Upload._get_current_time_str;
    unfold Py.bind, Py.get, Py.ret, Py.modify;
    cbn [Upload._last_time_sec Upload._last_time_str Upload.no_cache].
  - destruct (Qle_bool ttl (Upload.now c - 0)) eqn:E; simpl.
    + eexists. split; [reflexivity | left; reflexivity].
    + eexists. split; [reflexivity|]. right. right. split; [reflexivity|].
      apply Qnot_le_lt. intros Hle. apply Qle_bool_iff in Hle. congruence.
  - destruct (Qle_bool ttl (Upload.now c - Upload.now c')) eqn:E; simpl.
    + eexists. split; [reflexivity | left; reflexivity].
    + eexists. split; [reflexivity|]. right. left. exists c'.
      split; [exact Hin|]. split; [reflexivity|].
      apply Qnot_le_lt. intros Hle. apply Qle_bool_iff in Hle. congruence.
Qed.

(** At a clock reading below the time to live the very first call returns
    the empty text. *)
Example first_time_str_is_empty :
  fst (Upload._get_current_time_str 1
         {| Upload.now := 0; Upload.now_str := "2000-01-01 00:00:00" |}
         Upload.no_cache)
  = Py.Ok EmptyString.
Proof. reflexivity. Qed.

(** ** The uploader of GPS_WIFI_Blue_3.py *)

(** Without the position flag [upload_data] returns at once. *)
Lemma upload_data_without_fix c http w :
  GPS.gps_data_valid (V3.gps w) = false ->
  V3.upload_data c http w = (Py.Ok false, w).
Proof.
  intros H. unfold V3.upload_data. unfold_py. cbv beta. rewrite H. reflexivity.
Qed.

(** [generate_payload] assigns the cache of the time text only. *)
Lemma generate_payload_state c w :
  exists t, snd (V3.generate_payload c w) = V3.set_cache t w.
Proof.
  unfold V3.generate_payload, Upload._get_current_time_str, Py.zoom. unfold_py.
  cbv beta.
  destruct (negb (GPS.gps_data_valid (V3.gps w)) || negb (V3.ble_data_received w)).
  - exists (V3.cache w). destruct w; reflexivity.
  - destruct (negb (Qle_bool 1 _)); simpl; eauto.
Qed.

Lemma upload_data_true c http w w' :
  V3.upload_data c http w = (Py.Ok true, w') ->
  GPS.gps_data_valid (V3.gps w) = true /\ V3.ble_data_received w = true /\
  (exists p, fst (V3.generate_payload c w) = Py.Ok (Some p) /\ http p = true) /\
  w' = V3.clear_flags (snd (V3.generate_payload c w)).
Proof.
  unfold V3.upload_data. unfold_py. cbv beta.
  destruct (GPS.gps_data_valid (V3.gps w)); [|discriminate].
  destruct (V3.ble_data_received w); [|discriminate].
  cbn [negb orb].
  destruct (V3.generate_payload c w) as [[[p|]|e] w1]; try discriminate.
  destruct (http p) eqn:Hp; [|discriminate].
  intros [= <-]. simpl. eauto 8.
Qed.

(** X12: a batch is handed to the server at most once.  When
    [upload_data] returns [True], both flags were set, the transport
    accepted the payload built from the state, both flags are cleared while
    position and [user_data] stay; and every further call, with any clock
    and any transport, returns [False] and changes nothing, until the GPS
    or BLE side sets a flag again. *)
Theorem upload_hands_over_once :
  forall (c : Upload.clock) (http : Upload.payload (list string) -> bool)
         (w w' : V3.world),
    V3.upload_data c http w = (Py.Ok true, w') ->
    (GPS.gps_data_valid (V3.gps w) = true /\ V3.ble_data_received w = true /\
     exists p, fst (V3.generate_payload c w) = Py.Ok (Some p) /\ http p = true) /\
    (GPS.gps_data_valid (V3.gps w') = false /\ V3.ble_data_received w' = false /\
     GPS.nmea_x (V3.gps w') = GPS.nmea_x (V3.gps w) /\
     GPS.nmea_y (V3.gps w') = GPS.nmea_y (V3.gps w) /\
     V3.user_data w' = V3.user_data w) /\
    (forall (c' : Upload.clock) (http' : Upload.payload (list string) -> bool),
       V3.upload_data c' http' w' = (Py.Ok false, w')).
Proof.
  intros c http w w' Hup.
  destruct (upload_data_true c http w w' Hup) as (Hv & Hb & Hp & ->).
  destruct (generate_payload_state c w) as [t ->].
  split; [auto|]. split; [repeat split|].
  intros c' http'. apply upload_data_without_fix. reflexivity.
Qed.

Lemma upload_hands_over_once_witness :
  (GPS.gps_data_valid (V3.gps V3.ready_world) = true /\
   V3.ble_data_received V3.ready_world = true /\
   exists p,
     fst (V3.generate_payload
            {| Upload.now := 10; Upload.now_str := "2025-06-01 12:00:00" |}
            V3.ready_world) = Py.Ok (Some p) /\
     (fun _ : Upload.payload (list string) => true) p = true) /\
  (GPS.gps_data_valid
     (V3.gps (V3.clear_flags
                (V3.set_cache {| Upload._last_time_str := "2025-06-01 12:00:00";
                                 Upload._last_time_sec := 10 |} V3.ready_world)))
   = false /\
   V3.ble_data_received
     (V3.clear_flags
        (V3.set_cache {| Upload._last_time_str := "2025-06-01 12:00:00";
                         Upload._last_time_sec := 10 |} V3.ready_world))
   = false /\
   GPS.nmea_x
     (V3.gps (V3.clear_flags
                (V3.set_cache {| Upload._last_time_str := "2025-06-01 12:00:00";
                                 Upload._last_time_sec := 10 |} V3.ready_world)))
   = GPS.nmea_x (V3.gps V3.ready_world) /\
   GPS.nmea_y
     (V3.gps (V3.clear_flags
                (V3.set_cache {| Upload._last_time_str := "2025-06-01 12:00:00";
                                 Upload._last_time_sec := 10 |} V3.ready_world)))
   = GPS.nmea_y (V3.gps V3.ready_world) /\
   V3.user_data
     (V3.clear_flags
        (V3.set_cache {| Upload._last_time_str := "2025-06-01 12:00:00";
                         Upload._last_time_sec := 10 |} V3.ready_world))
   = V3.user_data V3.ready_world) /\
  (forall (c' : Upload.clock) (http' : Upload.payload (list string) -> bool),
     V3.upload_data c' http'
       (V3.clear_flags
          (V3.set_cache {| Upload._last_time_str := "2025-06-01 12:00:00";
                           Upload._last_time_sec := 10 |} V3.ready_world))
     = (Py.Ok false,
        V3.clear_flags
          (V3.set_cache {| Upload._last_time_str := "2025-06-01 12:00:00";
                           Upload._last_time_sec := 10 |} V3.ready_world))).
Proof.
  apply (upload_hands_over_once
           {| Upload.now := 10; Upload.now_str := "2025-06-01 12:00:00" |}
           (fun _ => true) V3.ready_world).
  reflexivity.
Defined.

(** ** GPS_WIFI_Blue_4_.py: the uploader and the loop *)

Lemma generate_payload_v4_state {A} c (w : V4.world A) :
  exists r t, V4.generate_payload c w = (Py.Ok r, V4.set_cache t w).
Proof.
  unfold V4.generate_payload, Upload._get_current_time_str, Pool.get_new, Py.zoom.
  unfold_py. cbv beta.
  destruct (4 <=? Pool.index (V4.pool_data w))%nat eqn:E; simpl.
  - destruct (negb (Qle_bool 2 _)); simpl; rewrite E; simpl;
      eexists; eexists; reflexivity.
  - exists None, (V4.cache w). destruct w; reflexivity.
Qed.

Lemma upload_data_v4_false {A} c (w : V4.world A) :
  exists t, V4Loop.upload_data c w = (Py.Ok false, V4.set_cache t w).
Proof.
  unfold V4Loop.upload_data, V4Loop.upload_try. unfold_py.
  destruct (generate_payload_v4_state c w) as (r & t & ->).
  exists t. destruct r as [p|]; [|reflexivity].
  destruct (Upload.user_data p) as [[|x l]|]; reflexivity.
Qed.

Lemma main_iteration_v4 {A} float cfg e l (w : V4.world A) :
  exists l' w',
    V4Loop.main_iteration float cfg e l w = (Py.Ok l', w') /\
    Main.last_upload_time l' = Main.last_upload_time l /\
    V4.pool_data w' = V4.pool_data w.
Proof.
  unfold V4Loop.main_iteration, Py.try_except, Py.bind, Py.zoom.
  pose proof (read_gps_data_returns float 2 (Upload.now (V4Loop.clock e))
                (V4Loop.uart e) (V4.gps w)) as Hgps.
  destruct (GPS.read_gps_data float 2 _ (V4Loop.uart e) (V4.gps w)) as [r g'].
  simpl in Hgps. subst r.
  unfold Main.upload_step. unfold_py.
  destruct (Main.due _ l); [|eexists; eexists; repeat split; reflexivity].
  destruct (V4Loop.wifi_connected e); [|eexists; eexists; repeat split; reflexivity].
  destruct (upload_data_v4_false (V4Loop.clock e) (V4Loop.set_gps g' w)) as [t ->].
  eexists; eexists. split; [reflexivity|].
  split; [apply on_failure_keeps_time | reflexivity].
Qed.

(** X13: in GPS_WIFI_Blue_4_.py no upload ever succeeds.  [upload_data]
    returns [False] in every state: without a batch it stops at the payload
    test, and with one it reads the name [wifi], which only [main] has as a
    local, so the handler of its [try] answers [False] before the transport
    is reached.  Over any passes of the loop of [main], therefore, nothing
    is raised, [last_upload_time] keeps its value and the ring buffer is
    not changed by the loop. *)
Theorem v4_upload_never_succeeds :
  forall (A : Type) (float : string -> Py.exn + Py.pyfloat) (cfg : Main.config)
         (c : Upload.clock) (es : list V4Loop.env) (l : Main.locals)
         (w : V4.world A),
    fst (V4Loop.upload_data c w) = Py.Ok false /\
    exists l' w',
      V4Loop.main_loop float cfg es l w = (Py.Ok l', w') /\
      Main.last_upload_time l' = Main.last_upload_time l /\
      V4.pool_data w' = V4.pool_data w.
Proof.
  intros A float cfg c es l w. split.
  - destruct (upload_data_v4_false c w) as [t ->]. reflexivity.
  - revert l w. induction es as [|e es IH]; intros l w; simpl.
    + exists l, w. repeat split.
    + unfold Py.bind.
      destruct (main_iteration_v4 float cfg e l w) as (l1 & w1 & -> & Ht & Hp).
      destruct (IH l1 w1) as (l' & w' & -> & Ht' & Hp').
      exists l', w'. split; [reflexivity|]. split; congruence.
Qed.

(** Four samples in the buffer, WiFi up, the interval passed: the pass
    counts a failure. *)
Example v4_pass_with_batch_fails :
  fst (V4Loop.main_iteration Py.float Main.config_v4
         {| V4Loop.uart := GPS.NoData;
            V4Loop.clock := {| Upload.now := 10; Upload.now_str := "2025-06-01 12:00:00" |};
            V4Loop.wifi_connected := true |}
         (Main.start Main.config_v4)
         {| V4.gps := GPS.init;
            V4.pool_data := Py.exec (Pool.pushes [1; 2; 3; 4]%nat) Pool.pool_data;
            V4.cache := Upload.no_cache |})
  = Py.Ok {| Main.last_upload_time := 0;
             Main.current_upload_interval := 1 # 2;
             Main.consecutive_failures := 1 |}.
Proof. reflexivity. Qed.

(** ** The loop of GPS_WIFI_Blue_3.py *)

(** X14: a pass of the loop of [main] raises nothing, whatever the
    receiver sent and whatever the transport answers.  With [w1] the state
    the GPS poll leaves, [upload_data()] called on [w1] returns some [ok]
    in a state [w2], and the pass ends with the variables of the loop that
    [tick] gives for that very [ok] (success branch for [True], failure
    branch for [False]), in the state [w2] when the pass made the call and
    in [w1] when it did not. *)
Theorem main_pass_completes :
  forall (float : string -> Py.exn + Py.pyfloat) (cfg : Main.config)
         (e : V3.env) (l : Main.locals) (w : V3.world),
    exists (ok : bool) (w2 : V3.world),
      V3.upload_data (V3.clock e) (V3.http_post e)
        (V3.set_gps
           (Py.exec (GPS.read_gps_data float 1 (Upload.now (V3.clock e)) (V3.uart e))
              (V3.gps w)) w)
      = (Py.Ok ok, w2) /\
      V3.main_iteration float cfg e l w
      = (Py.Ok (Main.tick cfg
                  {| Main.current_time := Upload.now (V3.clock e);
                     Main.connected := V3.wifi_connected e;
                     Main.upload_ok := ok |} l),
         if Main.attempts
              {| Main.current_time := Upload.now (V3.clock e);
                 Main.connected := V3.wifi_connected e;
                 Main.upload_ok := ok |} l
         then w2
         else V3.set_gps
                (Py.exec (GPS.read_gps_data float 1 (Upload.now (V3.clock e)) (V3.uart e))
                   (V3.gps w)) w).
Proof.
  intros float cfg e l w.
  unfold V3.main_iteration, Py.try_except, Py.bind, Py.zoom, Py.exec.
  pose proof (read_gps_data_returns float 1 (Upload.now (V3.clock e))
                (V3.uart e) (V3.gps w)) as Hgps.
  destruct (GPS.read_gps_data float 1 _ (V3.uart e) (V3.gps w)) as [r g'].
  cbn [fst snd] in *. subst r.
  destruct (upload_data_returns (V3.clock e) (V3.http_post e) (V3.set_gps g' w))
    as (ok & w2 & Hup).
  exists ok, w2. split; [exact Hup|].
  unfold Main.upload_step, Main.tick, Main.attempts, Py.bind, Py.ret.
  cbn [Main.current_time Main.connected Main.upload_ok].
  destruct (Main.due (Upload.now (V3.clock e)) l); [|reflexivity].
  destruct (V3.wifi_connected e); [|reflexivity].
  rewrite Hup. cbn [andb]. reflexivity.
Qed.

Section SchedulerInvariants.

Local Open Scope Q_scope.

Variable cfg : Main.config.
Hypothesis lo_nonneg : 0 <= Main.min_upload_interval cfg.
Hypothesis lo_le_hi : Main.min_upload_interval cfg <= Main.max_upload_interval cfg.
Hypothesis thr_pos : (1 <= Main.max_consecutive_failures cfg)%nat.

Lemma tick_keeps_floor e l :
  Main.min_upload_interval cfg <= Main.current_upload_interval l ->
  (Main.consecutive_failures l < Main.max_consecutive_failures cfg)%nat ->
  Main.min_upload_interval cfg <= Main.current_upload_interval (Main.tick cfg e l) /\
  (Main.consecutive_failures (Main.tick cfg e l)
   < Main.max_consecutive_failures cfg)%nat.
Proof.
  intros Hi Hf. unfold Main.tick, Main.on_success, Main.on_failure.
  destruct (Main.due _ l), (Main.connected e), (Main.upload_ok e); simpl;
    try (split; [first [exact Hi | apply Qle_refl] | lia]).
  destruct (_ <=? _)%nat eqn:E; simpl.
  - split; [|lia]. apply Q.min_glb; [lra | exact lo_le_hi].
  - apply Nat.leb_gt in E. split; [exact Hi | lia].
Qed.

Lemma run_keeps_floor events : forall l,
  Main.min_upload_interval cfg <= Main.current_upload_interval l ->
  (Main.consecutive_failures l < Main.max_consecutive_failures cfg)%nat ->
  Main.min_upload_interval cfg <= Main.current_upload_interval (Main.run cfg events l) /\
  (Main.consecutive_failures (Main.run cfg events l)
   < Main.max_consecutive_failures cfg)%nat.
Proof.
  induction events as [|e events IH]; intros l Hi Hf; simpl; [auto|].
  destruct (tick_keeps_floor e l Hi Hf) as [Hi' Hf']. apply IH; assumption.
Qed.

End SchedulerInvariants.

(** X15: two invariants of the loop variables, from the start of [main]
    and over any passes, whatever their outcome: the interval never falls
    below the minimum, and the failure counter stays below the threshold
    (it is reset in the pass in which it reaches it). *)
Theorem interval_floor_and_counter_bound :
  forall (cfg : Main.config) (events : list Main.event),
    (0 <= Main.min_upload_interval cfg)%Q ->
    (Main.min_upload_interval cfg <= Main.max_upload_interval cfg)%Q ->
    (1 <= Main.max_consecutive_failures cfg)%nat ->
    (Main.min_upload_interval cfg
     <= Main.current_upload_interval (Main.run cfg events (Main.start cfg)))%Q /\
    (Main.consecutive_failures (Main.run cfg events (Main.start cfg))
     < Main.max_consecutive_failures cfg)%nat.
Proof.
  intros cfg events H0 Hle Hthr.
  apply run_keeps_floor; try assumption.
  simpl. apply Qle_refl.
Qed.

Lemma interval_floor_and_counter_bound_witness :
  ((1 # 2)
   <= Main.current_upload_interval
        (Main.run Main.config_v3
           [Main.Build_event 1 true false; Main.Build_event 2 true true;
            Main.Build_event 3 true false; Main.Build_event 4 false false]
           (Main.start Main.config_v3)))%Q /\
  (Main.consecutive_failures
     (Main.run Main.config_v3
        [Main.Build_event 1 true false; Main.Build_event 2 true true;
         Main.Build_event 3 true false; Main.Build_event 4 false false]
        (Main.start Main.config_v3))
   < 3)%nat.
Proof.
  apply (interval_floor_and_counter_bound Main.config_v3
           [Main.Build_event 1 true false; Main.Build_event 2 true true;
            Main.Build_event 3 true false; Main.Build_event 4 false false]).
  - simpl. lra.
  - simpl. lra.
  - simpl. lia.
Defined.

(** X16: the position flag cleared by a successful upload is set again by
    the next void sentence when a history exists: the stored fix becomes
    the position once more, and it counts as valid for the next upload
    although no new fix was received. *)
Theorem void_sentence_revalidates_after_upload :
  forall (float : string -> Py.exn + Py.pyfloat) (now : Q) (c : Upload.clock)
         (http : Upload.payload (list string) -> bool) (s : string)
         (w w' : V3.world),
    V3.upload_data c http w = (Py.Ok true, w') ->
    GPS.void s ->
    Py.eq0 (GPS.last_x (V3.gps w)) = false ->
    GPS.gps_data_valid (V3.gps w') = false /\
    GPS.gps_data_valid (Py.exec (GPS._parse_gll float now s) (V3.gps w')) = true /\
    GPS.nmea_x (Py.exec (GPS._parse_gll float now s) (V3.gps w'))
    = GPS.last_x (V3.gps w) /\
    GPS.nmea_y (Py.exec (GPS._parse_gll float now s) (V3.gps w'))
    = GPS.last_y (V3.gps w).
Proof.
  intros float now c http s w w' Hup Hvoid Hx.
  destruct (upload_data_true c http w w' Hup) as (_ & _ & _ & ->).
  destruct (generate_payload_state c w) as [t ->].
  split; [reflexivity|].
  destruct (parser_void GPS.Blue_3 float now s
              (V3.gps (V3.clear_flags (V3.set_cache t w))) Hvoid) as [He | He];
    simpl GPS.parser in He.
  - exfalso. revert He.
    destruct Hvoid as (st & Hst & Hne). unfold GPS.status in Hst.
    assert (Hlen : (6 < length (Py.split "," s))%nat)
      by (apply lookup_lt_is_Some; eauto).
    assert (Hneq : (st =? "A")%string = false) by (apply String.eqb_neq; exact Hne).
    assert (E2 : (length (Py.split "," s) <? 7)%nat = false)
      by (apply Nat.ltb_ge; lia).
    unfold GPS._parse_gll, Py.index, Py.ne0. unfold_py.
    rewrite E2, Hst, Hneq. cbn [negb V3.gps V3.clear_flags V3.set_cache GPS.last_x].
    rewrite Hx. simpl. unfold GPS.use_history. simpl. discriminate.
  - rewrite He. simpl. auto.
Qed.

Lemma void_sentence_revalidates_after_upload_witness :
  GPS.gps_data_valid
    (V3.gps (V3.clear_flags
               (V3.set_cache {| Upload._last_time_str := "2025-06-01 12:00:00";
                                Upload._last_time_sec := 10 |} V3.ready_world)))
  = false /\
  GPS.gps_data_valid
    (Py.exec (GPS._parse_gll Py.float 11 GPS.void_sentence)
       (V3.gps (V3.clear_flags
                  (V3.set_cache {| Upload._last_time_str := "2025-06-01 12:00:00";
                                   Upload._last_time_sec := 10 |} V3.ready_world))))
  = true /\
  GPS.nmea_x
    (Py.exec (GPS._parse_gll Py.float 11 GPS.void_sentence)
       (V3.gps (V3.clear_flags
                  (V3.set_cache {| Upload._last_time_str := "2025-06-01 12:00:00";
                                   Upload._last_time_sec := 10 |} V3.ready_world))))
  = GPS.last_x (V3.gps V3.ready_world) /\
  GPS.nmea_y
    (Py.exec (GPS._parse_gll Py.float 11 GPS.void_sentence)
       (V3.gps (V3.clear_flags
                  (V3.set_cache {| Upload._last_time_str := "2025-06-01 12:00:00";
                                   Upload._last_time_sec := 10 |} V3.ready_world))))
  = GPS.last_y (V3.gps V3.ready_world).
Proof.
  apply (void_sentence_revalidates_after_upload Py.float 11
           {| Upload.now := 10; Upload.now_str := "2025-06-01 12:00:00" |}
           (fun _ => true) GPS.void_sentence V3.ready_world).
  - reflexivity.
  - apply void_sentence_is_void.
  - reflexivity.
Defined.

(** ** [WiFiManager.connect] *)

(** The waiting loop: every poll that did not end it answered [False] and
    was followed by one sleep; it ends early exactly on a poll that
    answered [True]. *)
Lemma wait_spec isconnected n : forall k z,
  exists d,
    (d <= n)%nat /\
    snd (WiFi.wait isconnected n k z) = (z + d)%nat /\
    (forall j, (k <= j < k + d)%nat -> isconnected j = false) /\
    ((d < n)%nat ->
     fst (WiFi.wait isconnected n k z) = (k + d + 1)%nat /\
     isconnected (k + d)%nat = true) /\
    (d = n -> fst (WiFi.wait isconnected n k z) = (k + n)%nat).
Proof.
  induction n as [|n IH]; intros k z; simpl.
  - exists 0%nat. repeat split; intros; lia.
  - destruct (isconnected k) eqn:E; simpl.
    + exists 0%nat. repeat split; intros; try lia.
      rewrite Nat.add_0_r. exact E.
    + destruct (IH (S k) (S z)) as (d & Hd & Hz & Hfalse & Hearly & Hfull).
      exists (S d). split; [lia|]. split; [rewrite Hz; lia|].
      split.
      { intros j Hj. destruct (decide (j = k)) as [->|Hne]; [exact E|].
        apply Hfalse. lia. }
      split.
      { intros Hlt. destruct (Hearly ltac:(lia)) as [Hk Ht].
        split; [rewrite Hk; lia|].
        replace (k + S d)%nat with (S k + d)%nat by lia. exact Ht. }
      intros Heq. rewrite Hfull by lia. lia.
Qed.

(** X17: what [connect] does, for any behaviour of the link.  It sleeps at
    most 10 times and asks [isconnected()] at most 12 times; its result is
    the answer of the last of these calls, not of the poll that ended the
    waiting.  When the first answer is [True] it neither dials nor sleeps;
    otherwise it dials, and it slept once after each poll of the loop that
    answered [False]. *)
Theorem connect_waits_at_most_ten_seconds :
  forall (isconnected : WiFi.link),
    (WiFi.sleeps (WiFi.connect isconnected) <= 10)%nat /\
    (2 <= WiFi.polls (WiFi.connect isconnected) <= 12)%nat /\
    WiFi.result (WiFi.connect isconnected)
    = isconnected (WiFi.polls (WiFi.connect isconnected) - 1)%nat /\
    (WiFi.dialled (WiFi.connect isconnected) = negb (isconnected 0%nat)) /\
    (isconnected 0%nat = true -> WiFi.sleeps (WiFi.connect isconnected) = 0%nat) /\
    (forall j, (1 <= j <= WiFi.sleeps (WiFi.connect isconnected))%nat ->
               isconnected j = false).
Proof.
  intros isconnected. unfold WiFi.connect.
  destruct (isconnected 0%nat) eqn:E0.
  - simpl. repeat split; intros; lia.
  - destruct (wait_spec isconnected 10 1 0) as (d & Hd & Hz & Hfalse & Hearly & Hfull).
    destruct (WiFi.wait isconnected 10 1 0) as [k z] eqn:Ew.
    cbn [fst snd] in Hz, Hearly, Hfull.
    cbn [WiFi.result WiFi.polls WiFi.sleeps WiFi.dialled negb].
    rewrite Nat.add_0_l in Hz. subst z.
    assert (Hk : (2 <= S k <= 12)%nat).
    { destruct (decide (d < 10)%nat) as [Hlt|Hge].
      - destruct (Hearly Hlt) as [-> _]. lia.
      - rewrite Hfull by lia. lia. }
    split; [lia|]. split; [exact Hk|].
    split; [f_equal; lia|].
    split; [reflexivity|]. split; [discriminate|].
    intros j Hj. apply Hfalse. lia.
Qed.

(** The link comes up during the wait and is gone at the last check: the
    loop ends on the second poll, and [connect] still returns [False]. *)
Example connect_reports_the_last_check :
  WiFi.connect (fun k => (k =? 2)%nat)
  = {| WiFi.result := false; WiFi.polls := 4; WiFi.sleeps := 1; WiFi.dialled := true |}.
Proof. reflexivity. Qed.

(** ** Reading back the position of a payload *)

Section ReadBack.

Local Open Scope N_scope.

Lemma uint_acc_pos d : forall acc,
  Reading.uint_acc d (N.pos acc) = N.pos (Pos.of_uint_acc d acc).
Proof.
  induction d; intros acc; simpl Reading.uint_acc; simpl Pos.of_uint_acc;
    try reflexivity;
    match goal with
    | |- Reading.uint_acc _ ?a = N.pos (Pos.of_uint_acc _ ?b) =>
        replace a with (N.pos b) by lia; apply IHd
    end.
Qed.

Lemma uint_acc_of_uint d : Reading.uint_acc d 0 = Pos.of_uint d.
Proof.
  induction d; simpl; try reflexivity; try exact IHd;
    apply (uint_acc_pos d).
Qed.

Lemma uint_acc_to_uint n : Reading.uint_acc (N.to_uint n) 0 = n.
Proof.
  rewrite uint_acc_of_uint. destruct n; simpl; [reflexivity|].
  apply DecimalPos.Unsigned.of_to.
Qed.

Lemma string_app_assoc (a b c : string) :
  ((a ++ b) ++ c)%string = (a ++ (b ++ c))%string.
Proof. induction a as [|x a IH]; simpl; [reflexivity | rewrite IH; reflexivity]. Qed.

Lemma string_app_nil_r (a : string) : (a ++ "")%string = a.
Proof. induction a as [|x a IH]; simpl; [reflexivity | rewrite IH; reflexivity]. Qed.

Lemma digit_val_digit_char d : Py.digit_val (Py.digit_char d) = Some (d mod 10).
Proof.
  unfold Py.digit_val, Py.digit_char.
  assert (Hr : d mod 10 < 10) by (apply N.mod_upper_bound; discriminate).
  generalize dependent (d mod 10). intros r Hr.
  rewrite N_ascii_embedding by lia.
  assert (E1 : (48 <=? 48 + r) = true) by (apply N.leb_le; lia).
  assert (E2 : (48 + r <=? 57) = true) by (apply N.leb_le; lia).
  rewrite E1, E2. cbn [andb]. f_equal. lia.
Qed.

(** Reading the digits [string_of_uint] printed. *)
Lemma digits_string_of_uint d : forall rest acc cnt,
  Py.digits (NilEmpty.string_of_uint d ++ rest)%string acc cnt
  = Py.digits rest (Reading.uint_acc d acc)
      (String.length (NilEmpty.string_of_uint d) + cnt)%nat.
Proof.
  induction d; intros rest acc cnt; simpl NilEmpty.string_of_uint;
    [reflexivity | ..];
    cbn [append Py.digits String.length Reading.uint_acc];
    (match goal with
     | |- context [Py.digit_val ?c] =>
         let v := eval vm_compute in (Py.digit_val c) in
         change (Py.digit_val c) with v
     end);
    cbv iota; rewrite IHd; f_equal; lia.
Qed.

(** Reading the digits [fixed_digits] printed. *)
Lemma digits_fixed_digits k : forall n rest acc cnt,
  Py.digits (Py.fixed_digits k n ++ rest)%string acc cnt
  = Py.digits rest (acc * 10 ^ N.of_nat k + n mod 10 ^ N.of_nat k) (k + cnt)%nat.
Proof.
  induction k as [|k IH]; intros n rest acc cnt.
  - simpl. rewrite N.mod_1_r, N.mul_1_r, N.add_0_r. reflexivity.
  - cbn [Py.fixed_digits]. rewrite string_app_assoc, IH.
    cbn [append Py.digits]. rewrite digit_val_digit_char.
    rewrite Nat2N.inj_succ, N.pow_succ_r', N.Div0.mod_mul_r.
    f_equal. lia.
Qed.

Lemma lstrip_no_space s : Reading.no_space s = true -> Py.lstrip s = s.
Proof.
  destruct s as [|c s]; simpl; [reflexivity|].
  intros H. apply andb_prop in H as [Hc _].
  destruct (Py.is_space c); [discriminate Hc | reflexivity].
Qed.

Lemma rstrip_no_space s : Reading.no_space s = true -> Py.rstrip s = s.
Proof.
  induction s as [|c s IH]; simpl; [reflexivity|].
  intros H. apply andb_prop in H as [Hc Hs]. rewrite (IH Hs).
  destruct s; [|reflexivity].
  destruct (Py.is_space c); [discriminate Hc | reflexivity].
Qed.

Lemma no_space_app a b :
  Reading.no_space (a ++ b)%string = Reading.no_space a && Reading.no_space b.
Proof.
  induction a as [|c a IH]; simpl; [reflexivity|].
  rewrite IH. apply andb_assoc.
Qed.

Lemma digit_range c :
  Py.is_digit c = true -> 48 <= N_of_ascii c <= 57.
Proof.
  unfold Py.is_digit, Py.digit_val.
  destruct (48 <=? N_of_ascii c) eqn:E1; [|discriminate].
  destruct (N_of_ascii c <=? 57) eqn:E2; [|discriminate].
  intros _. apply N.leb_le in E1, E2. lia.
Qed.

Lemma digit_not_space c : Py.is_digit c = true -> Py.is_space c = false.
Proof.
  intros H. apply digit_range in H. unfold Py.is_space.
  assert (E1 : (N_of_ascii c =? 32) = false) by (apply N.eqb_neq; lia).
  assert (E2 : (N_of_ascii c <=? 13) = false) by (apply N.leb_gt; lia).
  rewrite E1, E2, andb_false_r. reflexivity.
Qed.

Lemma all_digits_no_space s : Py.all_digits s = true -> Reading.no_space s = true.
Proof.
  induction s as [|c s IH]; simpl; [reflexivity|].
  intros H. apply andb_prop in H as [Hc Hs].
  rewrite (digit_not_space c Hc), (IH Hs). reflexivity.
Qed.

Lemma lower_digit c : Py.is_digit c = true -> Py.lower c = c.
Proof.
  intros H. apply digit_range in H. unfold Py.lower.
  assert (E : (N_of_ascii c <=? 90) && (65 <=? N_of_ascii c) = false).
  { assert (E1 : (65 <=? N_of_ascii c) = false) by (apply N.leb_gt; lia).
    rewrite E1. apply andb_false_r. }
  rewrite andb_comm, E. reflexivity.
Qed.

(** A text that starts with a digit carries no sign and is none of the
    names [inf], [infinity], [nan]. *)
Lemma digit_first c t :
  Py.is_digit c = true ->
  Py.sign (String c t) = (false, String c t) /\
  ((Py.lowercase (String c t) =? "inf")%string
   || (Py.lowercase (String c t) =? "infinity")%string) = false /\
  (Py.lowercase (String c t) =? "nan")%string = false.
Proof.
  intros H.
  assert (Hi : c <> "i"%char) by (intros ->; discriminate H).
  assert (Hn : c <> "n"%char) by (intros ->; discriminate H).
  assert (Hm : c <> "-"%char) by (intros ->; discriminate H).
  assert (Hp : c <> "+"%char) by (intros ->; discriminate H).
  split; [|split].
  - unfold Py.sign.
    destruct c as [[] [] [] [] [] [] [] []]; try reflexivity; congruence.
  - simpl Py.lowercase. rewrite (lower_digit c H).
    apply orb_false_iff. split; apply String.eqb_neq; congruence.
  - simpl Py.lowercase. rewrite (lower_digit c H).
    apply String.eqb_neq. congruence.
Qed.

(** What [float] reads from digits, a point and six digits. *)
Lemma float_of_fixed (sg : bool) (q n : N) :
  Py.float ((if sg then "-" else "") ++ Py.str_N q ++ String "." (Py.fixed_digits 6 n))
  = inr (Py.Fin sg (q * 10 ^ 6 + n mod 10 ^ 6) (-6)).
Proof.
  destruct (str_N_spec q) as [Hi Hne].
  destruct (fixed_digits_spec 6 n) as [Hf Hl].
  set (I := Py.str_N q) in *. set (F := Py.fixed_digits 6 n) in *.
  set (body := (I ++ String "." F)%string).
  assert (Hbody_ns : Reading.no_space body = true).
  { subst body. rewrite no_space_app. cbn [Reading.no_space].
    rewrite (all_digits_no_space I Hi), (all_digits_no_space F Hf). reflexivity. }
  assert (Hall_ns : Reading.no_space ((if sg then "-" else "") ++ body)%string = true).
  { destruct sg; simpl; exact Hbody_ns. }
  unfold Py.float.
  rewrite (lstrip_no_space _ Hall_ns), (rstrip_no_space _ Hall_ns).
  destruct I as [|c I'] eqn:EI; [congruence|].
  assert (Hc : Py.is_digit c = true)
    by (simpl in Hi; apply andb_prop in Hi; apply Hi).
  destruct (digit_first c (I' ++ String "." F)%string Hc) as (Hsign & Hinf & Hnan).
  assert (Hsg : Py.sign ((if sg then "-" else "") ++ body)%string = (sg, body)).
  { destruct sg; [reflexivity|]. subst body. simpl. exact Hsign. }
  rewrite Hsg. subst body.
  change (String c I' ++ String "." F)%string with (String c (I' ++ String "." F)).
  rewrite Hinf, Hnan.
  change (String c (I' ++ String "." F)) with (String c I' ++ String "." F)%string.
  rewrite <- EI. unfold I at 1. unfold Py.str_N.
  rewrite digits_string_of_uint, uint_acc_to_uint.
  cbn [Py.digits]. change (Py.digit_val ".") with (@None N). cbv iota.
  rewrite <- (string_app_nil_r F) at 1.
  unfold F at 1. rewrite digits_fixed_digits.
  cbn [Py.digits]. fold (Py.str_N q). fold I.
  assert (Hcount : exists j, (String.length I + 0 + (6 + 0))%nat = S j).
  { exists (String.length I + 0 + 5)%nat. lia. }
  destruct Hcount as [j ->].
  cbn [Py.exponent]. reflexivity.
Qed.

(** The text ["%.6f"] prints for a finite float, taken apart again by
    [Py.float], is the float rounded to six decimal places. *)
Lemma float_format_6f s m e :
  Py.float (Py.format_6f (Py.Fin s m e)) = inr (Py.Fin s (Py.micro m e) (-6)).
Proof.
  unfold Py.format_6f. cbv zeta.
  change ("." ++ Py.fixed_digits 6 (Py.micro m e))%string
    with (String "." (Py.fixed_digits 6 (Py.micro m e))).
  rewrite float_of_fixed. do 2 f_equal.
  rewrite N.mul_comm. symmetry. apply N.div_mod. discriminate.
Qed.

End ReadBack.

Section ReadBackValue.
Local Open Scope Z_scope.

Lemma round_half_even_close m d :
  (0 < d)%N ->
  2 * Z.abs (Z.of_N (Py.round_half_even m d) * Z.of_N d - Z.of_N m) <= Z.of_N d.
Proof.
  intros Hd. unfold Py.round_half_even. cbv zeta.
  pose proof (N.div_mod m d ltac:(lia)) as Hdm.
  pose proof (N.mod_lt m d ltac:(lia)) as Hlt.
  set (q := (m / d)%N) in *. set (r := (m mod d)%N) in *.
  destruct ((d <? 2 * r)%N) eqn:E1; simpl.
  - apply N.ltb_lt in E1. nia.
  - apply N.ltb_ge in E1.
    destruct ((2 * r =? d)%N) eqn:E2; simpl.
    + apply N.eqb_eq in E2. destruct (N.odd q); nia.
    + nia.
Qed.

Lemma of_N_pow10 k : 0 <= k -> Z.of_N (10 ^ Z.to_N k) = 10 ^ k.
Proof. intros Hk. rewrite N2Z.inj_pow, Z2N.id by exact Hk. reflexivity. Qed.

(** Rounding to six places moves a finite float by at most half a unit of
    the sixth place. *)
Lemma micro_close s m e :
  exists v v' : Q,
    Py.to_Q (Py.Fin s m e) = Some v /\
    Py.to_Q (Py.Fin s (Py.micro m e) (-6)) = Some v' /\
    (v - (1 # 2000000) <= v' /\ v' <= v + (1 # 2000000))%Q.
Proof.
  unfold Py.to_Q. cbv zeta.
  change (0 <=? -6) with false. cbv iota.
  change (Z.to_pos (10 ^ (- (-6)))) with 1000000%positive.
  eexists. eexists. split; [reflexivity|]. split; [reflexivity|].
  set (a := Z.of_N m). set (a' := Z.of_N (Py.micro m e)).
  assert (Ha : 0 <= a) by (subst a; lia).
  destruct (0 <=? e) eqn:Ee.
  - apply Z.leb_le in Ee.
    assert (Ha' : a' = a * 10 ^ e * 1000000).
    { subst a' a. unfold Py.micro.
      assert (E6 : (0 <=? e + 6) = true) by (apply Z.leb_le; lia).
      rewrite E6, N2Z.inj_mul, of_N_pow10 by lia.
      rewrite Z.pow_add_r by lia. change (10 ^ 6) with 1000000. lia. }
    rewrite Ha'. generalize (a * 10 ^ e). intros b.
    destruct s; unfold Qle, Qminus, Qplus, Qopp, inject_Z; cbn [Qnum Qden]; lia.
  - apply Z.leb_gt in Ee.
    assert (HR : 0 < 10 ^ (- e)) by (apply Z.pow_pos_nonneg; lia).
    destruct (0 <=? e + 6) eqn:E6.
    + apply Z.leb_le in E6.
      assert (Ha' : (a' * 10 ^ (- e) = a * 1000000)%Z).
      { subst a' a. unfold Py.micro.
        assert (E6' : (0 <=? e + 6) = true) by (apply Z.leb_le; lia).
        rewrite E6', N2Z.inj_mul, of_N_pow10 by lia.
        rewrite <- Z.mul_assoc, <- Z.pow_add_r by lia.
        replace (e + 6 + - e) with 6 by lia. reflexivity. }
      destruct s; unfold Qle, Qminus, Qplus, Qopp; cbn [Qnum Qden];
        rewrite ?Pos2Z.inj_mul, ?Z2Pos.id by exact HR; nia.
    + apply Z.leb_gt in E6.
      set (D := 10 ^ (- (e + 6))).
      assert (HD : 0 < D) by (apply Z.pow_pos_nonneg; lia).
      assert (HRD : 10 ^ (- e) = D * 1000000).
      { subst D. change 1000000 with (10 ^ 6).
        rewrite <- (Z.pow_add_r 10 (- (e + 6)) 6) by lia.
        f_equal. lia. }
      assert (Hclose : 2 * Z.abs (a' * D - a) <= D).
      { subst a' a D. unfold Py.micro.
        assert (E6' : (0 <=? e + 6) = false) by (apply Z.leb_gt; lia).
        rewrite E6'. rewrite <- (of_N_pow10 (- (e + 6))) by lia.
        apply round_half_even_close.
        apply N2Z.inj_lt. rewrite of_N_pow10 by lia. exact HD. }
      destruct s; unfold Qle, Qminus, Qplus, Qopp; cbn [Qnum Qden];
        rewrite ?Pos2Z.inj_mul, ?Z2Pos.id by exact HR;
        rewrite HRD; nia.
Qed.

End ReadBackValue.

Lemma format_6f_close_numeral x :
  Py.is_finite x = true -> Reading.close_numeral x (Py.format_6f x).
Proof.
  intros Hx. destruct (finite_is_Fin x Hx) as (s & m & e & ->).
  destruct (micro_close s m e) as (v & v' & Hv & Hv' & Hb).
  exists v, v'. split; [exact Hv|]. split; [|exact Hb].
  unfold Reading.numeral_value. rewrite float_format_6f. exact Hv'.
Qed.

(** X18: the position texts of a payload denote the held coordinates to six
    places.  In a payload built by [generate_payload] of GPS_WIFI_Blue_3.py
    or GPS_WIFI_Blue_4_.py, when the two coordinates are finite,
    [position_x] and [position_y] are decimal numerals, and the number each
    one denotes, digit for digit, is within 0.0000005 of the coordinate it
    was printed from: ["%.6f"] rounds the exact value of the float to six
    places, a tie to the even digit. *)
Theorem payload_positions_within_half_unit :
  (forall (c : Upload.clock) (w : V3.world) (p : Upload.payload (list string)),
     fst (V3.generate_payload c w) = Py.Ok (Some p) ->
     Py.is_finite (GPS.nmea_x (V3.gps w)) = true ->
     Py.is_finite (GPS.nmea_y (V3.gps w)) = true ->
     Reading.close_numeral (GPS.nmea_x (V3.gps w)) (Upload.position_x p) /\
     Reading.close_numeral (GPS.nmea_y (V3.gps w)) (Upload.position_y p)) /\
  (forall (A : Type) (c : Upload.clock) (w : V4.world A)
          (p : Upload.payload (option (list (option A)))),
     fst (V4.generate_payload c w) = Py.Ok (Some p) ->
     Py.is_finite (GPS.nmea_x (V4.gps w)) = true ->
     Py.is_finite (GPS.nmea_y (V4.gps w)) = true ->
     Reading.close_numeral (GPS.nmea_x (V4.gps w)) (Upload.position_x p) /\
     Reading.close_numeral (GPS.nmea_y (V4.gps w)) (Upload.position_y p)).
Proof.
  split.
  - intros c w p Hp Hx Hy.
    destruct (generate_payload_positions c w p Hp) as [-> ->].
    split; apply format_6f_close_numeral; assumption.
  - intros A c w p Hp Hx Hy.
    destruct (generate_payload_v4_positions c w p Hp) as [-> ->].
    split; apply format_6f_close_numeral; assumption.
Qed.

Lemma payload_positions_within_half_unit_witness :
  Reading.close_numeral (GPS.nmea_x (V3.gps V3.ready_world)) "-12158.341600" /\
  Reading.close_numeral (GPS.nmea_y (V3.gps V3.ready_world)) "3723.247500".
Proof.
  apply (proj1 payload_positions_within_half_unit
           {| Upload.now := 10; Upload.now_str := "2025-06-01 12:00:00" |}
           V3.ready_world
           {| Upload.device_id := "3";
              Upload.position_x := "-12158.341600";
              Upload.position_y := "3723.247500";
              Upload.time_stamp := "2025-06-01 12:00:00";
              Upload.user_data := ["a"; "b"] |});
    reflexivity.
Defined.
